(** * gunz: the per-frame physics resolver, the dash impulse and the
      double-press detector of [src/main.cpp], embedded in Rocq.

    The program is a single translation unit.  The embedding keeps its
    structure:

    - [Int32]   : the C++ [int] of [Player::delta_x] and [Player::delta_y],
                  as [Z] with two's-complement wrap-around;
    - [Int64]   : the 64-bit tick count of [std::chrono::system_clock],
                  as [Z] with the same wrap-around;
    - [F32]     : the C++ [float] of raylib's [Rectangle], as IEEE-754
                  binary32 ([SpecFloat] at precision 24, emax 128);
    - [Platform]: what [main.cpp] calls but does not define
                  ([CheckCollisionRecs], [GetCollisionRec], the unqualified
                  [abs]);
    - [Player], [apply_gravity], [KeyDoublePress], [frame]: the code. *)

From Stdlib Require Import ZArith List Bool Lia.
From Stdlib Require Import Floats.SpecFloat.
From Stdlib Require Import Sorting.Permutation.
Import ListNotations.

Local Open Scope Z_scope.
Local Open Scope bool_scope.

(* ================================================================== *)
(** ** Machine integers *)

Module Int32.

Definition min_int : Z := -2147483648.
Definition max_int : Z := 2147483647.
Definition modulus : Z := 4294967296.

(** The value an [int] object holds after a result [z] is stored in it:
    reduction modulo 2^32 into [min_int .. max_int].  For the compound
    assignments with a [uint32_t] operand ([delta_x -= PLAYER_DASH_SPEED])
    this is the language rule (the arithmetic is unsigned, the store
    converts back); for [delta_y += 1] at [max_int] the language leaves the
    result open and the model takes the two's-complement one. *)
Definition wrap (z : Z) : Z := (z - min_int) mod modulus + min_int.

Definition in_range (z : Z) : Prop := min_int <= z <= max_int.

End Int32.

(** The signed 64-bit count of a [std::chrono] duration or time point. *)
Module Int64.

Definition min_int : Z := -9223372036854775808.
Definition max_int : Z := 9223372036854775807.
Definition modulus : Z := 18446744073709551616.

(** The value a 64-bit count holds after a result [z]: reduction modulo
    2^64 into [min_int .. max_int].  Past [max_int] the language leaves the
    result of [time_point + duration] open; the model takes the
    two's-complement one. *)
Definition wrap (z : Z) : Z := (z - min_int) mod modulus + min_int.

Definition in_range (z : Z) : Prop := min_int <= z <= max_int.

End Int64.

(* ================================================================== *)
(** ** Single-precision floats *)

(** The C++ [float]. *)
Definition float : Type := spec_float.

Module F32.

Definition prec : Z := 24.
Definition emax : Z := 128.

(** Conversion of an integer value to [float] (round to nearest even),
    as in [player.x + player.delta_x] or the literals [0], [1], [2]. *)
Definition of_int (z : Z) : float := binary_normalize prec emax z 0 false.

Definition add (a b : float) : float := SFadd prec emax a b.
Definition sub (a b : float) : float := SFsub prec emax a b.

Definition ltb (a b : float) : bool := SFltb a b.   (* a <  b *)
Definition leb (a b : float) : bool := SFleb a b.   (* a <= b *)
Definition gtb (a b : float) : bool := SFltb b a.   (* a >  b *)
Definition eqb (a b : float) : bool := SFeqb a b.   (* a == b *)
Definition neb (a b : float) : bool := negb (SFeqb a b).  (* a != b *)

(** [std::min(a, b)]: [(b < a) ? b : a]. *)
Definition min (a b : float) : float := if ltb b a then b else a.

(** [fabsf]. *)
Definition fabs (a : float) : float := SFabs a.

Definition valid (a : float) : bool := valid_binary prec emax a.

End F32.

(* ================================================================== *)
(** ** Data model *)

(** raylib's [Rectangle]. *)
Record Rectangle : Type := mkRectangle {
  x : float;
  y : float;
  width : float;
  height : float;
}.

(** [struct Player : Rectangle { int delta_x; int delta_y; ... }]. *)
Record Player : Type := mkPlayer {
  rect :> Rectangle;
  delta_x : Z;
  delta_y : Z;
}.

Definition set_x (p : Player) (v : float) : Player :=
  mkPlayer (mkRectangle v (y p) (width p) (height p)) (delta_x p) (delta_y p).
Definition set_y (p : Player) (v : float) : Player :=
  mkPlayer (mkRectangle (x p) v (width p) (height p)) (delta_x p) (delta_y p).
Definition set_delta_x (p : Player) (v : Z) : Player :=
  mkPlayer (rect p) v (delta_y p).
Definition set_delta_y (p : Player) (v : Z) : Player :=
  mkPlayer (rect p) (delta_x p) v.

(** Constants of [main.cpp]. *)
Definition WIDTH : Z := 800.
Definition HEIGHT : Z := 600.
Definition TOP_OF_FLOOR : Z := HEIGHT - 20.
Definition PLAYER_MOVE_SPEED : Z := 5.
Definition PLAYER_DASH_SPEED : Z := 50.
Definition JUMP_DELTA : Z := -20.

(** Key codes of raylib's [KeyboardKey] enumeration. *)
Definition KEY_A : Z := 65.
Definition KEY_D : Z := 68.
Definition KEY_S : Z := 83.
Definition KEY_W : Z := 87.
Definition KEY_SPACE : Z := 32.

(* ================================================================== *)
(** ** Player methods *)

(** [Player::jump]. *)
Definition jump (this : Player) : Player := set_delta_y this JUMP_DELTA.

(** [Player::dash]: a [switch] on the key; [KEY_S], [KEY_W] and [default]
    share the empty branch. *)
Definition dash (this : Player) (key : Z) : Player :=
  if key =? KEY_A then
    set_delta_x this (Int32.wrap (delta_x this - PLAYER_DASH_SPEED))
  else if key =? KEY_D then
    set_delta_x this (Int32.wrap (delta_x this + PLAYER_DASH_SPEED))
  else this.

(* ================================================================== *)
(** ** What the translation unit calls but does not define *)

(** [CheckCollisionRecs] and [GetCollisionRec] are raylib's; [abs] is the
    overload the toolchain's headers select for the unqualified call
    [abs(player.x - next_x)] on a [float] argument. *)
Class Platform : Type := {
  CheckCollisionRecs : Rectangle -> Rectangle -> bool;
  GetCollisionRec : Rectangle -> Rectangle -> Rectangle;
  abs : float -> float;
}.

(** raylib's implementation of the two rectangle functions, with [fabsf]
    for [abs]; the concrete scenarios below run on it. *)
Module Raylib.

Definition CheckCollisionRecs (rec1 rec2 : Rectangle) : bool :=
  (F32.ltb (x rec1) (F32.add (x rec2) (width rec2))
   && F32.gtb (F32.add (x rec1) (width rec1)) (x rec2))
  && (F32.ltb (y rec1) (F32.add (y rec2) (height rec2))
      && F32.gtb (F32.add (y rec1) (height rec1)) (y rec2)).

Definition GetCollisionRec (rec1 rec2 : Rectangle) : Rectangle :=
  let zero := F32.of_int 0 in
  let left := if F32.gtb (x rec1) (x rec2) then x rec1 else x rec2 in
  let right1 := F32.add (x rec1) (width rec1) in
  let right2 := F32.add (x rec2) (width rec2) in
  let right := if F32.ltb right1 right2 then right1 else right2 in
  let top := if F32.gtb (y rec1) (y rec2) then y rec1 else y rec2 in
  let bottom1 := F32.add (y rec1) (height rec1) in
  let bottom2 := F32.add (y rec2) (height rec2) in
  let bottom := if F32.ltb bottom1 bottom2 then bottom1 else bottom2 in
  if F32.ltb left right && F32.ltb top bottom then
    mkRectangle left top (F32.sub right left) (F32.sub bottom top)
  else mkRectangle zero zero zero zero.

Definition platform : Platform :=
  Build_Platform CheckCollisionRecs GetCollisionRec F32.fabs.

End Raylib.

(* ================================================================== *)
(** ** The physics resolver: [apply_gravity] *)

Section Resolver.

Context {platform : Platform}.

(** Lines 39-42: [player.delta_y += 1; if (player.delta_y >= 10)
    player.delta_y = 10;]. *)
Definition gravity_step (player : Player) : Player :=
  let player := set_delta_y player (Int32.wrap (delta_y player + 1)) in
  if 10 <=? delta_y player then set_delta_y player 10 else player.

(** Lines 44-45, read after the gravity step. *)
Definition tentative_y (player : Player) : float :=
  F32.add (y player) (F32.of_int (delta_y player)).
Definition tentative_x (player : Player) : float :=
  F32.add (x player) (F32.of_int (delta_x player)).

(** Lines 47-51: the swept rectangle. *)
Definition next_rect (player : Player) (next_x next_y : float) : Rectangle :=
  {| x := F32.min next_x (x player);
     y := F32.min next_y (y player);
     width := F32.add (abs (F32.sub (x player) next_x)) (width player);
     height := F32.add (abs (F32.sub (y player) next_y)) (height player) |}.

(** Lines 53-58: the floor probe. *)
Definition one_below (player : Player) (next_x next_y : float) : Rectangle :=
  {| x := next_x;
     y := F32.sub (F32.add next_y (height player)) (F32.of_int 1);
     width := width player;
     height := F32.of_int 2 |}.

(** Lines 60-64: the floor check; it may rewrite the local [next_y] and
    [player.delta_y]. *)
Definition floor_check (player : Player) (floor : Rectangle)
    (next_x next_y : float) : Player * float :=
  if CheckCollisionRecs (one_below player next_x next_y) floor then
    let next_y := F32.sub (y floor) (height player) in
    let player := if 0 <? delta_y player then set_delta_y player 0
                  else player in
    (player, next_y)
  else (player, next_y).

(** Lines 67-105: the body of the wall loop, on the locals
    [(next_x, next_y)]. *)
Definition wall_step (player : Player) (next_rect : Rectangle)
    (locals : float * float) (wall : Rectangle) : float * float :=
  let '(next_x, next_y) := locals in
  let collision := GetCollisionRec next_rect wall in
  if F32.neb (width collision) (F32.of_int 0)
     || F32.neb (height collision) (F32.of_int 0) then
    let started_above := F32.leb (F32.add (y player) (height player)) (y wall) in
    let started_below := F32.leb (F32.add (y wall) (height wall)) (y player) in
    let ended_above :=
      F32.leb (F32.add (y next_rect) (height next_rect)) (y wall) in
    let ended_below :=
      F32.leb (F32.add (y wall) (height wall)) (y next_rect) in
    let next_y := if started_above && negb ended_above
                  then F32.sub (y wall) (height player) else next_y in
    let next_y := if started_below && negb ended_below
                  then F32.add (y wall) (height wall) else next_y in
    let started_left := F32.leb (F32.add (x player) (width player)) (x wall) in
    let started_right := F32.leb (F32.add (x wall) (width wall)) (x player) in
    let ended_left :=
      F32.leb (F32.add (x next_rect) (width next_rect)) (x wall) in
    let ended_right :=
      F32.leb (F32.add (x wall) (width wall)) (x next_rect) in
    let next_x := if started_left && negb ended_left
                  then F32.sub (x wall) (width player) else next_x in
    let next_x := if started_right && negb ended_right
                  then F32.add (x wall) (width wall) else next_x in
    (next_x, next_y)
  else (next_x, next_y).

(** Line 66: [for (const auto wall : walls)]. *)
Definition wall_loop (player : Player) (next_rect : Rectangle)
    (walls : list Rectangle) (locals : float * float) : float * float :=
  fold_left (wall_step player next_rect) walls locals.

(** Lines 37-111. *)
Definition apply_gravity (player : Player) (floor : Rectangle)
    (walls : list Rectangle) : Player :=
  let player := gravity_step player in
  let next_y := tentative_y player in
  let next_x := tentative_x player in
  let next_rect := next_rect player next_x next_y in
  let '(player, next_y) := floor_check player floor next_x next_y in
  let '(next_x, next_y) := wall_loop player next_rect walls (next_x, next_y) in
  let player := set_x player next_x in
  let player := set_delta_x player 0 in
  set_y player next_y.

End Resolver.

(* ================================================================== *)
(** ** The double-press detector *)

(** Time points of [std::chrono::system_clock], as a count of clock ticks
    since the epoch; the count is a signed 64-bit integer ([Int64]). *)
Definition time_point : Type := Z.

(** [struct KeyDoublePress]. *)
Record KeyDoublePress : Type := mkKeyDoublePress {
  last_pressed : time_point;
  key : Z;
}.

(** What one frame of the outside world answers: raylib's key state, which
    is fixed between two polls, and the system clock, read once in each
    iteration of the scan that sees a fresh press ([now i] is what the read
    in iteration [i] returns). *)
Record Input : Type := mkInput {
  IsKeyPressed : Z -> bool;
  IsKeyDown : Z -> bool;
  now : nat -> time_point;
}.

Section Detector.

(** Clock ticks per millisecond (the period of the clock is the
    library's choice). *)
Variable ticks_per_ms : Z.

Definition milliseconds (n : Z) : Z := n * ticks_per_ms.

(** Lines 119-127: one iteration, on the local [double_pressed] and the
    object's fields. *)
Definition scan_key (inp : Input) (i : nat) (keys : list Z)
    (st : Z * KeyDoublePress) : Z * KeyDoublePress :=
  let '(double_pressed, this) := st in
  let current_key := nth i keys 0 in
  if IsKeyPressed inp current_key then
    let now := now inp i in
    let double_pressed :=
      if (key this =? current_key)
         && (now <? Int64.wrap (last_pressed this + milliseconds 300))
      then current_key else double_pressed in
    (double_pressed, {| last_pressed := now; key := current_key |})
  else (double_pressed, this).

(** Line 118: [for (int i = 0; i < 4; i++)], as [n] iterations from
    index [i]. *)
Fixpoint scan_loop (inp : Input) (keys : list Z) (n : nat) (i : nat)
    (st : Z * KeyDoublePress) : Z * KeyDoublePress :=
  match n with
  | O => st
  | S n' => scan_loop inp keys n' (S i) (scan_key inp i keys st)
  end.

(** [KeyDoublePress::is_double_press]: the returned key and the object
    after the call.  [keys] holds the four keys of the array argument. *)
Definition is_double_press (inp : Input) (this : KeyDoublePress)
    (keys : list Z) : Z * KeyDoublePress :=
  scan_loop inp keys 4 0 (0, this).

End Detector.

(* ================================================================== *)
(** ** One iteration of the main loop (lines 167-177) *)

Record World : Type := mkWorld {
  w_player : Player;
  w_floor : Rectangle;
  w_walls : list Rectangle;
  w_double_press : KeyDoublePress;
}.

(** [constexpr uint32_t keys[4] = {KEY_W, KEY_A, KEY_S, KEY_D};]. *)
Definition keys : list Z := [KEY_W; KEY_A; KEY_S; KEY_D].

Section Loop.

Context {platform : Platform}.
Variable ticks_per_ms : Z.

(** Lines 167-175: the detector, the dash and the held keys. *)
Definition read_input (inp : Input) (w : World) : World :=
  let '(pressed, double_press) :=
    is_double_press ticks_per_ms inp (w_double_press w) keys in
  let player := dash (w_player w) pressed in
  let player :=
    if IsKeyDown inp KEY_A
    then set_delta_x player (Int32.wrap (delta_x player - PLAYER_MOVE_SPEED))
    else player in
  let player :=
    if IsKeyDown inp KEY_D
    then set_delta_x player (Int32.wrap (delta_x player + PLAYER_MOVE_SPEED))
    else player in
  let player := if IsKeyPressed inp KEY_SPACE then jump player else player in
  mkWorld player (w_floor w) (w_walls w) double_press.

(** Line 177: [apply_gravity(player, floor, walls)]; the player is passed
    by reference, the floor by value, the walls by reference. *)
Definition call_apply_gravity (w : World) : World :=
  mkWorld (apply_gravity (w_player w) (w_floor w) (w_walls w))
          (w_floor w) (w_walls w) (w_double_press w).

Definition frame (inp : Input) (w : World) : World :=
  call_apply_gravity (read_input inp w).

End Loop.

(** The world [main] builds before the loop, given the clock reading of
    line 161. *)
Definition initial_world (start : time_point) : World :=
  {| w_player :=
       mkPlayer (mkRectangle (F32.of_int 100) (F32.of_int 100)
                             (F32.of_int 20) (F32.of_int 20)) 0 0;
     w_floor :=
       mkRectangle (F32.of_int (-100)) (F32.of_int TOP_OF_FLOOR)
                   (F32.of_int 1000) (F32.of_int 20);
     w_walls :=
       [ mkRectangle (F32.of_int 100) (F32.of_int (TOP_OF_FLOOR - 100))
                     (F32.of_int 20) (F32.of_int 100);
         mkRectangle (F32.of_int 600) (F32.of_int 200)
                     (F32.of_int 100) (F32.of_int 20) ];
     w_double_press := {| last_pressed := start; key := 0 |} |}.

(* ================================================================== *)
(** ** Concrete scenarios *)

Module Scenario.

(** The floor, walls and player of [main]. *)
Definition floor : Rectangle := w_floor (initial_world 0).
Definition walls : list Rectangle := w_walls (initial_world 0).

Definition player_at (px py : Z) (dx dy : Z) : Player :=
  mkPlayer (mkRectangle (F32.of_int px) (F32.of_int py)
                        (F32.of_int 20) (F32.of_int 20)) dx dy.

(** One unit above the resting height, at rest. *)
Definition hovering : Player := player_at 300 559 0 0.

(** Sunk into the floor and moving up. *)
Definition rising : Player := player_at 300 570 0 (-5).

(** About to be clamped, and at the largest [int]. *)
Definition falling9 : Player := player_at 300 100 0 9.
Definition falling_max : Player := player_at 300 100 0 Int32.max_int.

(** A probe as tall as one unit, for comparison with [one_below]. *)
Definition one_unit_probe (player : Player) (next_x next_y : float)
    : Rectangle :=
  {| x := next_x;
     y := F32.sub (F32.add next_y (height player)) (F32.of_int 1);
     width := width player;
     height := F32.of_int 1 |}.

(** Keyboard and clock of a frame in which exactly key [k] is freshly
    pressed (and nothing is held) while the clock reads [t]. *)
Definition press (k : Z) (t : time_point) : Input :=
  mkInput (fun c => c =? k) (fun _ => false) (fun _ => t).

(** A frame without any key. *)
Definition idle (t : time_point) : Input :=
  mkInput (fun _ => false) (fun _ => false) (fun _ => t).

(** A clock that ticks in nanoseconds. *)
Definition ns_per_ms : Z := 1000000.

(** Walls for the resolver: a ledge under the player, a second ledge two
    units higher, and a post to the player's right. *)
Definition ledge : Rectangle :=
  mkRectangle (F32.of_int 280) (F32.of_int 480) (F32.of_int 100) (F32.of_int 20).
Definition high_ledge : Rectangle :=
  mkRectangle (F32.of_int 280) (F32.of_int 478) (F32.of_int 100) (F32.of_int 20).
Definition post : Rectangle :=
  mkRectangle (F32.of_int 322) (F32.of_int 400) (F32.of_int 20) (F32.of_int 70).

(** Falling to the right, just above the ledges and left of the post. *)
Definition diving : Player := player_at 300 455 5 9.



(** Up and left freshly pressed in the same frame. *)
Definition press_up_left (t : time_point) : Input :=
  mkInput (fun c => (c =? KEY_W) || (c =? KEY_A)) (fun _ => false)
          (fun _ => t).

(** Left and right freshly pressed in the same frame, and an array that
    scans the right key twice. *)
Definition press_left_right (t : time_point) : Input :=
  mkInput (fun c => (c =? KEY_A) || (c =? KEY_D)) (fun _ => false)
          (fun _ => t).
Definition repeated_keys : list Z := [KEY_A; KEY_D; KEY_D; KEY_W].

(** The detector as [main] creates it, and one second in nanoseconds. *)
Definition detector0 : KeyDoublePress := w_double_press (initial_world 0).
Definition second_ns : time_point := 1000000000.

End Scenario.

(* ================================================================== *)
(** ** Vocabulary of the statements *)

Section Vocabulary.

Context {platform : Platform}.

(** The locals [next_x], [next_y] when the wall loop ends. *)
Definition resolved (player : Player) (floor : Rectangle)
    (walls : list Rectangle) : float * float :=
  let g := gravity_step player in
  let fc := floor_check g floor (tentative_x g) (tentative_y g) in
  wall_loop (fst fc) (next_rect g (tentative_x g) (tentative_y g)) walls
            (tentative_x g, snd fc).

(** Line 69: the wall takes part in the resolution. *)
Definition collides (next_rect wall : Rectangle) : bool :=
  let collision := GetCollisionRec next_rect wall in
  F32.neb (width collision) (F32.of_int 0)
  || F32.neb (height collision) (F32.of_int 0).

(** [started_above && !ended_above] and its three siblings, for a player
    rectangle [pl], the swept rectangle [nr] and a wall. *)
Definition crossed_from_above (pl nr wall : Rectangle) : bool :=
  F32.leb (F32.add (y pl) (height pl)) (y wall)
  && negb (F32.leb (F32.add (y nr) (height nr)) (y wall)).
Definition crossed_from_below (pl nr wall : Rectangle) : bool :=
  F32.leb (F32.add (y wall) (height wall)) (y pl)
  && negb (F32.leb (F32.add (y wall) (height wall)) (y nr)).
Definition crossed_from_left (pl nr wall : Rectangle) : bool :=
  F32.leb (F32.add (x pl) (width pl)) (x wall)
  && negb (F32.leb (F32.add (x nr) (width nr)) (x wall)).
Definition crossed_from_right (pl nr wall : Rectangle) : bool :=
  F32.leb (F32.add (x wall) (width wall)) (x pl)
  && negb (F32.leb (F32.add (x wall) (width wall)) (x nr)).

(** The value one wall leaves in [next_y] (in [next_x]), if it leaves
    one. *)
Definition y_snap (pl nr wall : Rectangle) : option float :=
  if collides nr wall then
    if crossed_from_below pl nr wall
    then Some (F32.add (y wall) (height wall))
    else if crossed_from_above pl nr wall
         then Some (F32.sub (y wall) (height pl))
         else None
  else None.
Definition x_snap (pl nr wall : Rectangle) : option float :=
  if collides nr wall then
    if crossed_from_right pl nr wall
    then Some (F32.add (x wall) (width wall))
    else if crossed_from_left pl nr wall
         then Some (F32.sub (x wall) (width pl))
         else None
  else None.

(** The last value of a sequence of optional assignments to a variable
    that starts at [start]. *)
Fixpoint last_snap (snaps : list (option float)) (start : float) : float :=
  match snaps with
  | [] => start
  | Some v :: rest => last_snap rest v
  | None :: rest => last_snap rest start
  end.

End Vocabulary.

Section DetectorVocabulary.

Variable ticks_per_ms : Z.
Variable inp : Input.
Variable this : KeyDoublePress.
Variable keys : list Z.

(** The key scanned in iteration [i] is freshly pressed. *)
Definition fresh (i : nat) : bool := IsKeyPressed inp (nth i keys 0).

(** The stored key and time as iteration [i] finds them: those of the
    latest fresh press of an earlier iteration, or those the call
    started with. *)
Fixpoint stored (i : nat) : KeyDoublePress :=
  match i with
  | O => this
  | S j => if fresh j
           then {| last_pressed := now inp j; key := nth j keys 0 |}
           else stored j
  end.

(** Iteration [i] sees a fresh press of the stored key, at a clock reading
    below the stored time plus 300ms (the sum as the 64-bit count holds
    it). *)
Definition matches (i : nat) : bool :=
  fresh i
  && ((key (stored i) =? nth i keys 0)
      && (now inp i <? Int64.wrap (last_pressed (stored i)
                                   + milliseconds ticks_per_ms 300))).

(** The key of the last matching iteration below [n], or 0. *)
Fixpoint last_match (n : nat) : Z :=
  match n with
  | O => 0
  | S j => if matches j then nth j keys 0 else last_match j
  end.

End DetectorVocabulary.

(* ================================================================== *)
(** ** The loop over several frames *)

Section Run.

Context {platform : Platform}.
Variable ticks_per_ms : Z.

(** [while (!WindowShouldClose())]: one [frame] for each input the loop
    sees before the window closes. *)
Definition run (inps : list Input) (w : World) : World :=
  fold_left (fun w inp => frame ticks_per_ms inp w) inps w.

(** The floor probe of the call [apply_gravity(player, floor, walls)] does
    not overlap the floor. *)
Definition misses_floor (w : World) : bool :=
  let g := gravity_step (w_player w) in
  negb (CheckCollisionRecs (one_below g (tentative_x g) (tentative_y g))
          (w_floor w)).

(** The probe misses the floor in every frame of the run. *)
Fixpoint airborne (inps : list Input) (w : World) : bool :=
  match inps with
  | [] => true
  | inp :: rest =>
      misses_floor (read_input ticks_per_ms inp w)
      && airborne rest (frame ticks_per_ms inp w)
  end.

End Run.

(** The walls that assign a value through [snap] all assign the same one. *)
Definition snaps_agree (snap : Rectangle -> option float)
    (walls : list Rectangle) : Prop :=
  forall (w1 w2 : Rectangle) (v1 v2 : float),
    In w1 walls -> In w2 walls ->
    snap w1 = Some v1 -> snap w2 = Some v2 -> v1 = v2.

(** The impulse [dash] gives for a key. *)
Definition dash_impulse (k : Z) : Z :=
  if k =? KEY_A then - PLAYER_DASH_SPEED
  else if k =? KEY_D then PLAYER_DASH_SPEED
  else 0.

(** A [float] that is a number: neither an infinity nor a NaN. *)
Definition is_number (a : float) : bool :=
  match a with
  | S754_zero _ | S754_finite _ _ _ => true
  | S754_infinity _ | S754_nan => false
  end.

(** Further scenarios. *)
Module Session.

(** Standing on [main]'s floor, away from its walls. *)
Definition resting : Player := Scenario.player_at 300 560 0 0.

(** Falling onto a ledge that lies five units above the floor. *)
Definition low_ledge : Rectangle :=
  mkRectangle (F32.of_int 280) (F32.of_int 575) (F32.of_int 100) (F32.of_int 20).
Definition sinking : Player := Scenario.player_at 300 552 0 9.

(** A player whose [delta_x] is 10 above the least [int]. *)
Definition leftmost : Player :=
  Scenario.player_at 300 100 (Int32.min_int + 10) 0.

(** A frame with a fresh jump while left is held. *)
Definition jump_left : Input :=
  mkInput (fun c => c =? KEY_SPACE) (fun c => c =? KEY_A) (fun _ => 0).

(** A frame with left and right both held. *)
Definition hold_both : Input :=
  mkInput (fun _ => false) (fun c => (c =? KEY_A) || (c =? KEY_D))
          (fun _ => 0).

(** [main]'s world with the player somewhere else. *)
Definition world_with (player : Player) : World :=
  mkWorld player Scenario.floor Scenario.walls Scenario.detector0.

(** Three frames without any key, and a double tap of left: two frames
    100ms apart with an idle frame between them. *)
Definition three_idle : list Input :=
  [Scenario.idle 0; Scenario.idle 1; Scenario.idle 2].
Definition double_tap_left : list Input :=
  [Scenario.press KEY_A Scenario.second_ns;
   Scenario.idle 1050000000;
   Scenario.press KEY_A 1100000000].

(** Standing on the floor with the left edge against [main]'s first
    wall. *)
Definition beside_wall : Player := Scenario.player_at 120 560 0 0.


(** A detector whose stored press of left lies 1000 ticks before the
    largest clock reading, and a fresh press of left 500 ticks later. *)
Definition late_detector : KeyDoublePress :=
  {| last_pressed := Int64.max_int - 1000; key := KEY_A |}.
Definition late_press : Input := Scenario.press KEY_A (Int64.max_int - 500).

End Session.

(* ================================================================== *)
(** * Properties *)

(** ** Machine integers *)

Lemma wrap_in_range (z : Z) : Int32.in_range (Int32.wrap z).
Proof.
  unfold Int32.in_range, Int32.wrap, Int32.min_int, Int32.max_int, Int32.modulus.
  pose proof (Z.mod_pos_bound (z - -2147483648) 4294967296 eq_refl). lia.
Qed.

Lemma wrap_small (z : Z) : Int32.in_range z -> Int32.wrap z = z.
Proof.
  unfold Int32.in_range, Int32.wrap, Int32.min_int, Int32.max_int, Int32.modulus.
  intros Hz. rewrite Z.mod_small by lia. lia.
Qed.

Lemma wrap64_small (z : Z) : Int64.in_range z -> Int64.wrap z = z.
Proof.
  unfold Int64.in_range, Int64.wrap, Int64.min_int, Int64.max_int,
    Int64.modulus.
  intros Hz. rewrite Z.mod_small by lia. lia.
Qed.

(** ** Field access after the setters *)

Lemma rect_set_delta_y (p : Player) (v : Z) : rect (set_delta_y p v) = rect p.
Proof. reflexivity. Qed.

Lemma rect_set_delta_x (p : Player) (v : Z) : rect (set_delta_x p v) = rect p.
Proof. reflexivity. Qed.

(** ** The gravity step *)

Lemma rect_gravity_step (player : Player) :
  rect (gravity_step player) = rect player.
Proof.
  unfold gravity_step.
  destruct (10 <=? delta_y (set_delta_y player _)); reflexivity.
Qed.

Lemma delta_x_gravity_step (player : Player) :
  delta_x (gravity_step player) = delta_x player.
Proof.
  unfold gravity_step.
  destruct (10 <=? delta_y (set_delta_y player _)); reflexivity.
Qed.

Lemma delta_y_gravity_step (player : Player) :
  delta_y (gravity_step player) =
  if 10 <=? Int32.wrap (delta_y player + 1) then 10
  else Int32.wrap (delta_y player + 1).
Proof.
  unfold gravity_step. cbn [delta_y set_delta_y].
  destruct (10 <=? Int32.wrap (delta_y player + 1)); reflexivity.
Qed.

Lemma gravity_step_le_10 (player : Player) : delta_y (gravity_step player) <= 10.
Proof.
  rewrite delta_y_gravity_step.
  destruct (10 <=? Int32.wrap (delta_y player + 1)) eqn:E; [lia|].
  apply Z.leb_gt in E. lia.
Qed.

Section ResolverFacts.

Context {platform : Platform}.

(** ** The floor check *)

Lemma floor_check_spec (player : Player) (floor : Rectangle)
    (next_x next_y : float) :
  floor_check player floor next_x next_y =
  if CheckCollisionRecs (one_below player next_x next_y) floor
  then (set_delta_y player (if 0 <? delta_y player then 0 else delta_y player),
        F32.sub (y floor) (height player))
  else (player, next_y).
Proof.
  unfold floor_check.
  destruct (CheckCollisionRecs _ floor); [|reflexivity].
  destruct (0 <? delta_y player); [reflexivity|].
  destruct player; reflexivity.
Qed.

Lemma rect_floor_check (player : Player) (floor : Rectangle)
    (next_x next_y : float) :
  rect (fst (floor_check player floor next_x next_y)) = rect player.
Proof.
  rewrite floor_check_spec.
  destruct (CheckCollisionRecs _ floor); reflexivity.
Qed.

Lemma delta_y_floor_check (player : Player) (floor : Rectangle)
    (next_x next_y : float) :
  delta_y (fst (floor_check player floor next_x next_y)) =
  if CheckCollisionRecs (one_below player next_x next_y) floor
     && (0 <? delta_y player)
  then 0 else delta_y player.
Proof.
  rewrite floor_check_spec.
  destruct (CheckCollisionRecs _ floor); [|reflexivity].
  cbn [fst delta_y set_delta_y andb].
  destruct (0 <? delta_y player); reflexivity.
Qed.

(** ** The shape of the result of [apply_gravity] *)

Lemma apply_gravity_spec (player : Player) (floor : Rectangle)
    (walls : list Rectangle) :
  let g := gravity_step player in
  apply_gravity player floor walls =
  mkPlayer
    (mkRectangle (fst (resolved player floor walls))
                 (snd (resolved player floor walls))
                 (width player) (height player))
    0
    (delta_y (fst (floor_check g floor (tentative_x g) (tentative_y g)))).
Proof.
  intro g. unfold apply_gravity, resolved. fold g.
  pose proof (rect_floor_check g floor (tentative_x g) (tentative_y g)) as Hr.
  destruct (floor_check g floor (tentative_x g) (tentative_y g)) as [q ny].
  cbn [fst snd] in *.
  destruct (wall_loop q _ walls (tentative_x g, ny)) as [rx ry].
  cbn [fst snd]. unfold set_y, set_delta_x, set_x. cbn.
  rewrite Hr. unfold g. rewrite rect_gravity_step. reflexivity.
Qed.

End ResolverFacts.

(* ================================================================== *)
(** ** Gravity (lines 39-42) *)

(** C4, as stated, fails at the largest [int]: there the increment leaves
    the range of [int], the stored value is [min_int], the test
    [delta_y >= 10] is false and nothing is clamped. *)
Lemma gravity_clamp_not_at_max_int :
  Int32.in_range (delta_y Scenario.falling_max)
  /\ 9 <= delta_y Scenario.falling_max
  /\ delta_y (gravity_step Scenario.falling_max) = Int32.min_int
  /\ delta_y (gravity_step Scenario.falling_max) <> 10
  /\ delta_y (@apply_gravity Raylib.platform Scenario.falling_max
                Scenario.floor Scenario.walls) = Int32.min_int.
Proof.
  repeat split; try (vm_compute; congruence).
Qed.

(** C4 (amended): one gravity step adds 1 to [delta_y] and clamps the
    result above.  For a starting [delta_y <= 9] the new value is
    [delta_y + 1]; for a starting [delta_y] with [9 <= delta_y < max_int]
    it is 10; and after every call of [apply_gravity], [delta_y <= 10]. *)
Theorem gravity_step_clamp :
  forall player : Player,
    Int32.in_range (delta_y player) ->
    (delta_y player <= 9 ->
       delta_y (gravity_step player) = delta_y player + 1)
    /\ (9 <= delta_y player < Int32.max_int ->
          delta_y (gravity_step player) = 10)
    /\ (forall (platform : Platform) floor walls,
          delta_y (apply_gravity player floor walls) <= 10).
Proof.
  intros player Hr. unfold Int32.in_range, Int32.min_int, Int32.max_int in *.
  repeat split.
  - intros Hle. rewrite delta_y_gravity_step.
    rewrite wrap_small
      by (unfold Int32.in_range, Int32.min_int, Int32.max_int; lia).
    destruct (10 <=? delta_y player + 1) eqn:E; [apply Z.leb_le in E|]; lia.
  - intros Hge. rewrite delta_y_gravity_step.
    rewrite wrap_small
      by (unfold Int32.in_range, Int32.min_int, Int32.max_int; lia).
    destruct (10 <=? delta_y player + 1) eqn:E; [|apply Z.leb_gt in E]; lia.
  - intros platform floor walls.
    rewrite (apply_gravity_spec player floor walls). cbn [delta_y].
    rewrite delta_y_floor_check.
    pose proof (gravity_step_le_10 player).
    destruct (_ && _); lia.
Qed.

Lemma gravity_step_clamp_witness :
  Int32.in_range (delta_y Scenario.falling9)
  /\ delta_y (gravity_step Scenario.falling9) = delta_y Scenario.falling9 + 1
  /\ delta_y (gravity_step Scenario.falling9) = 10
  /\ delta_y (@apply_gravity Raylib.platform Scenario.falling9
                Scenario.floor Scenario.walls) <= 10.
Proof.
  assert (Hr : Int32.in_range (delta_y Scenario.falling9))
    by (vm_compute; split; congruence).
  destruct (gravity_step_clamp Scenario.falling9 Hr) as (H1 & H2 & H3).
  split; [exact Hr|]. split; [|split].
  - apply H1. vm_compute. congruence.
  - apply H2. vm_compute. split; [congruence|reflexivity].
  - apply H3.
Defined.

(* ================================================================== *)
(** ** The floor probe (lines 53-58) *)

(** C5, as stated, fails: the probe is two units tall, not one.  On [main]'s
    floor a player whose tentative bottom edge just touches the floor's top
    is caught by [one_below] and would be missed by a probe one unit
    tall. *)
Lemma one_below_not_one_unit_tall :
  let g := gravity_step Scenario.hovering in
  let probe := one_below g (tentative_x g) (tentative_y g) in
  height probe = F32.of_int 2
  /\ height probe <> F32.of_int 1
  /\ F32.eqb (height probe) (F32.of_int 1) = false
  /\ Raylib.CheckCollisionRecs probe Scenario.floor = true
  /\ Raylib.CheckCollisionRecs
       (Scenario.one_unit_probe g (tentative_x g) (tentative_y g))
       Scenario.floor = false.
Proof.
  repeat split; try (vm_compute; congruence).
Qed.

(** C5 (amended): the floor probe built in [apply_gravity] is two units
    tall, positioned at [x = next_x] and [y = next_y + player.height - 1],
    with width [player.width]; it is the rectangle whose overlap with the
    floor decides the floor snap. *)
Theorem one_below_shape :
  forall (platform : Platform) (player : Player) (floor : Rectangle)
         (next_x next_y : float),
    one_below player next_x next_y =
      mkRectangle next_x
                  (F32.sub (F32.add next_y (height player)) (F32.of_int 1))
                  (width player)
                  (F32.of_int 2)
    /\ (let g := gravity_step player in
        y (apply_gravity player floor []) =
        if CheckCollisionRecs
             (mkRectangle (tentative_x g)
                (F32.sub (F32.add (tentative_y g) (height player))
                         (F32.of_int 1))
                (width player) (F32.of_int 2))
             floor
        then F32.sub (y floor) (height player)
        else tentative_y g).
Proof.
  intros platform player floor next_x next_y. split; [reflexivity|].
  intro g. rewrite (apply_gravity_spec player floor []). cbn [y rect].
  unfold resolved, wall_loop. cbn [fold_left snd]. fold g.
  rewrite floor_check_spec. unfold one_below.
  assert (Hh : height g = height player)
    by (unfold g; rewrite rect_gravity_step; reflexivity).
  assert (Hw : width g = width player)
    by (unfold g; rewrite rect_gravity_step; reflexivity).
  rewrite Hh, Hw.
  destruct (CheckCollisionRecs _ floor); reflexivity.
Qed.

(* ================================================================== *)
(** ** The floor snap (lines 60-64) *)

(** C1: whenever the floor probe, placed at the tentative position,
    overlaps the floor, [next_y] becomes [floor.y - player.height] whatever
    the sign of [delta_y]; [delta_y] becomes 0 exactly when it is positive
    after the gravity step, and a rising player keeps it.  With no walls the
    committed [player.y] is [floor.y - player.height]. *)
Theorem floor_snap :
  forall (platform : Platform) (player : Player) (floor : Rectangle)
         (walls : list Rectangle),
    let g := gravity_step player in
    CheckCollisionRecs (one_below g (tentative_x g) (tentative_y g)) floor
      = true ->
    snd (floor_check g floor (tentative_x g) (tentative_y g))
      = F32.sub (y floor) (height player)
    /\ delta_y (apply_gravity player floor walls)
       = (if 0 <? delta_y g then 0 else delta_y g)
    /\ (delta_y g < 0 -> delta_y (apply_gravity player floor walls) = delta_y g)
    /\ y (apply_gravity player floor []) = F32.sub (y floor) (height player).
Proof.
  intros platform player floor walls g Hc.
  assert (Hh : height g = height player)
    by (unfold g; rewrite rect_gravity_step; reflexivity).
  assert (Hdy : delta_y (apply_gravity player floor walls)
                = if 0 <? delta_y g then 0 else delta_y g).
  { rewrite (apply_gravity_spec player floor walls). cbn [delta_y].
    fold g. rewrite delta_y_floor_check, Hc. reflexivity. }
  repeat split.
  - rewrite floor_check_spec, Hc. cbn [snd]. now rewrite Hh.
  - exact Hdy.
  - intros Hneg. rewrite Hdy.
    destruct (0 <? delta_y g) eqn:E; [apply Z.ltb_lt in E; lia|reflexivity].
  - rewrite (apply_gravity_spec player floor []). cbn [y rect].
    unfold resolved, wall_loop. cbn [fold_left snd]. fold g.
    rewrite floor_check_spec, Hc. cbn [snd]. now rewrite Hh.
Qed.

Lemma floor_snap_witness :
  (let g := gravity_step Scenario.hovering in
   Raylib.CheckCollisionRecs (one_below g (tentative_x g) (tentative_y g))
     Scenario.floor = true)
  /\ y (@apply_gravity Raylib.platform Scenario.hovering Scenario.floor [])
     = F32.of_int 560
  /\ delta_y (@apply_gravity Raylib.platform Scenario.hovering
                Scenario.floor Scenario.walls) = 0
  /\ (let g := gravity_step Scenario.rising in
      Raylib.CheckCollisionRecs (one_below g (tentative_x g) (tentative_y g))
        Scenario.floor = true)
  /\ y (@apply_gravity Raylib.platform Scenario.rising Scenario.floor [])
     = F32.of_int 560
  /\ delta_y (@apply_gravity Raylib.platform Scenario.rising
                Scenario.floor Scenario.walls) = -4.
Proof.
  assert (H1 : let g := gravity_step Scenario.hovering in
               @CheckCollisionRecs Raylib.platform
                 (one_below g (tentative_x g) (tentative_y g)) Scenario.floor
               = true) by (vm_compute; reflexivity).
  assert (H2 : let g := gravity_step Scenario.rising in
               @CheckCollisionRecs Raylib.platform
                 (one_below g (tentative_x g) (tentative_y g)) Scenario.floor
               = true) by (vm_compute; reflexivity).
  destruct (floor_snap Raylib.platform Scenario.hovering Scenario.floor
              Scenario.walls H1) as (_ & A2 & _ & A4).
  destruct (floor_snap Raylib.platform Scenario.rising Scenario.floor
              Scenario.walls H2) as (_ & _ & B3 & B4).
  split; [exact H1|]. split; [rewrite A4; vm_compute; reflexivity|].
  split; [rewrite A2; vm_compute; reflexivity|].
  split; [exact H2|]. split; [rewrite B4; vm_compute; reflexivity|].
  rewrite B3; vm_compute; reflexivity.
Defined.

(* ================================================================== *)
(** ** The dash (lines 21-34) *)

Lemma delta_y_dash (this : Player) (k : Z) : delta_y (dash this k) = delta_y this.
Proof.
  unfold dash. destruct (k =? KEY_A); [reflexivity|].
  destruct (k =? KEY_D); reflexivity.
Qed.

Lemma rect_dash (this : Player) (k : Z) : rect (dash this k) = rect this.
Proof.
  unfold dash. destruct (k =? KEY_A); [reflexivity|].
  destruct (k =? KEY_D); reflexivity.
Qed.

(** C8: [dash] takes 50 from [delta_x] for the move-left key, adds 50 for
    the move-right key (in [int] arithmetic: exactly, whenever the result is
    an [int]) and does nothing for any other key, among them up, down and 0;
    it never touches [delta_y] or the rectangle, so the impulse adds to
    whatever [delta_x] already holds. *)
Theorem dash_effect :
  forall (this : Player) (k : Z),
    PLAYER_DASH_SPEED = 50
    /\ delta_x (dash this KEY_A) = Int32.wrap (delta_x this - 50)
    /\ delta_x (dash this KEY_D) = Int32.wrap (delta_x this + 50)
    /\ (Int32.in_range (delta_x this - 50) ->
          delta_x (dash this KEY_A) = delta_x this - 50)
    /\ (Int32.in_range (delta_x this + 50) ->
          delta_x (dash this KEY_D) = delta_x this + 50)
    /\ (k <> KEY_A -> k <> KEY_D -> dash this k = this)
    /\ dash this KEY_W = this
    /\ dash this KEY_S = this
    /\ dash this 0 = this
    /\ delta_y (dash this k) = delta_y this
    /\ rect (dash this k) = rect this.
Proof.
  intros this k.
  split; [reflexivity|]. split; [reflexivity|]. split; [reflexivity|].
  split; [intros Hr; cbn; now rewrite wrap_small|].
  split; [intros Hr; cbn; now rewrite wrap_small|].
  split.
  { intros Ha Hd. unfold dash.
    destruct (Z.eqb_spec k KEY_A); [contradiction|].
    destruct (Z.eqb_spec k KEY_D); [contradiction|reflexivity]. }
  split; [reflexivity|]. split; [reflexivity|]. split; [reflexivity|].
  split; [apply delta_y_dash|apply rect_dash].
Qed.

Lemma dash_effect_witness :
  Int32.in_range (delta_x (Scenario.player_at 300 100 (-5) 3) - 50)
  /\ delta_x (dash (Scenario.player_at 300 100 (-5) 3) KEY_A) = -55
  /\ Int32.in_range (delta_x (Scenario.player_at 300 100 5 3) + 50)
  /\ delta_x (dash (Scenario.player_at 300 100 5 3) KEY_D) = 55
  /\ KEY_SPACE <> KEY_A /\ KEY_SPACE <> KEY_D
  /\ dash (Scenario.player_at 300 100 5 3) KEY_SPACE
     = Scenario.player_at 300 100 5 3.
Proof.
  assert (Ha : Int32.in_range (delta_x (Scenario.player_at 300 100 (-5) 3) - 50))
    by (vm_compute; split; congruence).
  assert (Hd : Int32.in_range (delta_x (Scenario.player_at 300 100 5 3) + 50))
    by (vm_compute; split; congruence).
  assert (Na : KEY_SPACE <> KEY_A) by (vm_compute; congruence).
  assert (Nd : KEY_SPACE <> KEY_D) by (vm_compute; congruence).
  destruct (dash_effect (Scenario.player_at 300 100 (-5) 3) KEY_A)
    as (_ & _ & _ & A & _).
  destruct (dash_effect (Scenario.player_at 300 100 5 3) KEY_SPACE)
    as (_ & _ & _ & _ & D & O & _).
  split; [exact Ha|]. split; [exact (A Ha)|].
  split; [exact Hd|]. split; [exact (D Hd)|].
  split; [exact Na|]. split; [exact Nd|]. exact (O Na Nd).
Defined.

(* ================================================================== *)
(** ** What a frame reads and what the resolver writes *)

Lemma delta_y_read_input {platform : Platform} (ticks_per_ms : Z)
    (inp : Input) (w : World) :
  delta_y (w_player (read_input ticks_per_ms inp w)) =
  if IsKeyPressed inp KEY_SPACE then JUMP_DELTA else delta_y (w_player w).
Proof.
  unfold read_input.
  destruct (is_double_press ticks_per_ms inp (w_double_press w) keys)
    as [pressed dp].
  cbn [w_player].
  destruct (IsKeyPressed inp KEY_SPACE); [reflexivity|].
  destruct (IsKeyDown inp KEY_D), (IsKeyDown inp KEY_A);
    cbn [delta_y set_delta_y set_delta_x]; apply delta_y_dash.
Qed.

(** C7: right after [apply_gravity] returns, [delta_x] is 0 whatever it was
    on entry; [delta_y] is not reset: it keeps its value after the gravity
    step, except that the floor check zeroes it when it is positive, and the
    next frame starts from that value unless a jump replaces it. *)
Theorem apply_gravity_resets_delta_x :
  forall (platform : Platform) (player : Player) (floor : Rectangle)
         (walls : list Rectangle),
    delta_x (apply_gravity player floor walls) = 0
    /\ delta_y (apply_gravity player floor walls)
       = (let g := gravity_step player in
          if CheckCollisionRecs
               (one_below g (tentative_x g) (tentative_y g)) floor
             && (0 <? delta_y g)
          then 0 else delta_y g)
    /\ (forall (ticks_per_ms : Z) (inp : Input) (w : World),
          delta_x (w_player (call_apply_gravity w)) = 0
          /\ delta_y (w_player (read_input ticks_per_ms inp
                                  (call_apply_gravity w)))
             = if IsKeyPressed inp KEY_SPACE then JUMP_DELTA
               else delta_y (w_player (call_apply_gravity w))).
Proof.
  intros platform player floor walls.
  rewrite (apply_gravity_spec player floor walls). cbn [delta_x delta_y].
  split; [reflexivity|]. split; [apply delta_y_floor_check|].
  intros ticks_per_ms inp w. split.
  - unfold call_apply_gravity. cbn [w_player].
    rewrite (apply_gravity_spec (w_player w)). reflexivity.
  - apply delta_y_read_input.
Qed.

(** C9: [apply_gravity] writes only the player's [x], [y], [delta_x] and
    [delta_y]: the player's [width] and [height] are what they were, and the
    call leaves the caller's floor and walls (and the detector) as they
    were. *)
Theorem apply_gravity_frame_condition :
  forall (platform : Platform) (player : Player) (floor : Rectangle)
         (walls : list Rectangle),
    width (apply_gravity player floor walls) = width player
    /\ height (apply_gravity player floor walls) = height player
    /\ (exists (nx ny : float) (dy : Z),
          apply_gravity player floor walls
          = mkPlayer (mkRectangle nx ny (width player) (height player)) 0 dy)
    /\ (forall w : World,
          w_floor (call_apply_gravity w) = w_floor w
          /\ w_walls (call_apply_gravity w) = w_walls w
          /\ w_double_press (call_apply_gravity w) = w_double_press w).
Proof.
  intros platform player floor walls.
  rewrite (apply_gravity_spec player floor walls). cbn [width height rect].
  split; [reflexivity|]. split; [reflexivity|]. split.
  - eexists _, _, _. reflexivity.
  - intros w. repeat split.
Qed.

(* ================================================================== *)
(** ** The wall loop (lines 66-106) *)

Section WallFacts.

Context {platform : Platform}.

(** One iteration, read through [x_snap] and [y_snap]: what it does is
    fixed by the player's rectangle, the swept rectangle and the wall, and
    the locals it receives only pass through. *)
Lemma wall_step_snap (player : Player) (nr wall : Rectangle)
    (lx ly : float) :
  wall_step player nr (lx, ly) wall =
  (match x_snap player nr wall with Some v => v | None => lx end,
   match y_snap player nr wall with Some v => v | None => ly end).
Proof.
  unfold wall_step, x_snap, y_snap, collides.
  destruct (F32.neb (width (GetCollisionRec nr wall)) (F32.of_int 0)
            || F32.neb (height (GetCollisionRec nr wall)) (F32.of_int 0));
    [|reflexivity].
  unfold crossed_from_right, crossed_from_left, crossed_from_below,
    crossed_from_above.
  destruct (F32.leb (F32.add (y wall) (height wall)) (y player)
            && negb (F32.leb (F32.add (y wall) (height wall)) (y nr)));
  destruct (F32.leb (F32.add (y player) (height player)) (y wall)
            && negb (F32.leb (F32.add (y nr) (height nr)) (y wall)));
  destruct (F32.leb (F32.add (x wall) (width wall)) (x player)
            && negb (F32.leb (F32.add (x wall) (width wall)) (x nr)));
  destruct (F32.leb (F32.add (x player) (width player)) (x wall)
            && negb (F32.leb (F32.add (x nr) (width nr)) (x wall)));
  reflexivity.
Qed.

Lemma wall_loop_snap (player : Player) (nr : Rectangle)
    (walls : list Rectangle) :
  forall lx ly : float,
    wall_loop player nr walls (lx, ly) =
    (last_snap (map (x_snap player nr) walls) lx,
     last_snap (map (y_snap player nr) walls) ly).
Proof.
  unfold wall_loop.
  induction walls as [|wall rest IH]; intros lx ly; [reflexivity|].
  cbn [fold_left map]. rewrite wall_step_snap, IH.
  destruct (x_snap player nr wall), (y_snap player nr wall); reflexivity.
Qed.

Lemma last_snap_app (pre post : list (option float)) (start : float) :
  last_snap (pre ++ post) start = last_snap post (last_snap pre start).
Proof.
  revert start. induction pre as [|[v|] pre IH]; intros start; cbn;
    [reflexivity|apply IH|apply IH].
Qed.

Lemma last_snap_none (snaps : list (option float)) (start : float) :
  Forall (fun s => s = None) snaps -> last_snap snaps start = start.
Proof.
  induction 1 as [|s rest Hs _ IH]; [reflexivity|].
  subst s. exact IH.
Qed.

(** After a wall that assigns [v], and walls that assign nothing, the
    variable holds [v]. *)
Lemma last_snap_last (snap : Rectangle -> option float)
    (pre post : list Rectangle) (wall : Rectangle) (v start : float) :
  snap wall = Some v ->
  Forall (fun w => snap w = None) post ->
  last_snap (map snap (pre ++ wall :: post)) start = v.
Proof.
  intros Hw Hpost.
  rewrite map_app, last_snap_app. cbn [map last_snap]. rewrite Hw.
  apply last_snap_none. apply Forall_map. exact Hpost.
Qed.

End WallFacts.



(** C2: every wall is tested against the one swept rectangle built before
    the loop from the player's position on entry and the tentative position;
    no snap feeds back into a later test.  Hence on each axis the last wall
    of the sequence that fires fixes the final value, and a vertical snap of
    one wall and a horizontal snap of another both reach the committed
    position. *)
Theorem wall_loop_last_wins :
  forall (platform : Platform) (player : Player) (floor : Rectangle)
         (walls : list Rectangle),
    let g := gravity_step player in
    let nr := next_rect g (tentative_x g) (tentative_y g) in
    let floored := snd (floor_check g floor (tentative_x g) (tentative_y g)) in
    nr = mkRectangle
           (F32.min (tentative_x g) (x player))
           (F32.min (tentative_y g) (y player))
           (F32.add (abs (F32.sub (x player) (tentative_x g))) (width player))
           (F32.add (abs (F32.sub (y player) (tentative_y g))) (height player))
    /\ (forall (q : Player) (wall : Rectangle) (lx ly : float),
          rect q = rect player ->
          wall_step q nr (lx, ly) wall =
          (match x_snap player nr wall with Some v => v | None => lx end,
           match y_snap player nr wall with Some v => v | None => ly end))
    /\ x (apply_gravity player floor walls)
       = last_snap (map (x_snap player nr) walls) (tentative_x g)
    /\ y (apply_gravity player floor walls)
       = last_snap (map (y_snap player nr) walls) floored
    /\ (forall (pre post : list Rectangle) (wall : Rectangle) (v : float),
          walls = pre ++ wall :: post ->
          y_snap player nr wall = Some v ->
          Forall (fun w => y_snap player nr w = None) post ->
          y (apply_gravity player floor walls) = v)
    /\ (forall (pre post : list Rectangle) (wall : Rectangle) (v : float),
          walls = pre ++ wall :: post ->
          x_snap player nr wall = Some v ->
          Forall (fun w => x_snap player nr w = None) post ->
          x (apply_gravity player floor walls) = v).
Proof.
  intros platform player floor walls g nr floored.
  assert (Hg : rect g = rect player) by apply rect_gravity_step.
  assert (Hx : x (apply_gravity player floor walls)
               = last_snap (map (x_snap player nr) walls) (tentative_x g)).
  { rewrite (apply_gravity_spec player floor walls). cbn [x rect].
    unfold resolved. fold g. fold nr. rewrite wall_loop_snap. cbn [fst].
    now rewrite rect_floor_check, Hg. }
  assert (Hy : y (apply_gravity player floor walls)
               = last_snap (map (y_snap player nr) walls) floored).
  { rewrite (apply_gravity_spec player floor walls). cbn [y rect].
    unfold resolved. fold g. fold nr. rewrite wall_loop_snap. cbn [snd].
    now rewrite rect_floor_check, Hg. }
  split; [unfold nr, next_rect; now rewrite Hg|].
  split; [intros q wall lx ly Hq; rewrite wall_step_snap; now rewrite Hq|].
  split; [exact Hx|]. split; [exact Hy|]. split.
  - intros pre post wall v -> Hw Hpost. rewrite Hy.
    now apply last_snap_last.
  - intros pre post wall v -> Hw Hpost. rewrite Hx.
    now apply last_snap_last.
Qed.

Lemma wall_loop_last_wins_witness :
  let g := gravity_step Scenario.diving in
  let nr := @next_rect Raylib.platform g (tentative_x g) (tentative_y g) in
  (@y_snap Raylib.platform Scenario.diving nr Scenario.ledge
     = Some (F32.of_int 460)
   /\ @y_snap Raylib.platform Scenario.diving nr Scenario.high_ledge
      = Some (F32.of_int 458)
   /\ @y_snap Raylib.platform Scenario.diving nr Scenario.post = None
   /\ @x_snap Raylib.platform Scenario.diving nr Scenario.post
      = Some (F32.of_int 302)
   /\ @x_snap Raylib.platform Scenario.diving nr Scenario.ledge = None)
  /\ y (@apply_gravity Raylib.platform Scenario.diving Scenario.floor
          [Scenario.ledge; Scenario.high_ledge]) = F32.of_int 458
  /\ y (@apply_gravity Raylib.platform Scenario.diving Scenario.floor
          [Scenario.high_ledge; Scenario.ledge]) = F32.of_int 460
  /\ y (@apply_gravity Raylib.platform Scenario.diving Scenario.floor
          [Scenario.ledge; Scenario.post]) = F32.of_int 460
  /\ x (@apply_gravity Raylib.platform Scenario.diving Scenario.floor
          [Scenario.ledge; Scenario.post]) = F32.of_int 302.
Proof.
  intros g nr.
  assert (Y1 : @y_snap Raylib.platform Scenario.diving nr Scenario.ledge
               = Some (F32.of_int 460)) by (vm_compute; reflexivity).
  assert (Y2 : @y_snap Raylib.platform Scenario.diving nr Scenario.high_ledge
               = Some (F32.of_int 458)) by (vm_compute; reflexivity).
  assert (Y3 : @y_snap Raylib.platform Scenario.diving nr Scenario.post = None)
    by (vm_compute; reflexivity).
  assert (X1 : @x_snap Raylib.platform Scenario.diving nr Scenario.post
               = Some (F32.of_int 302)) by (vm_compute; reflexivity).
  assert (X2 : @x_snap Raylib.platform Scenario.diving nr Scenario.ledge = None)
    by (vm_compute; reflexivity).
  split; [repeat split; assumption|].
  split; [|split; [|split]].
  - exact (proj1 (proj2 (proj2 (proj2 (proj2
             (wall_loop_last_wins Raylib.platform Scenario.diving
                Scenario.floor [Scenario.ledge; Scenario.high_ledge])))))
             [Scenario.ledge] [] Scenario.high_ledge _ eq_refl Y2
             (Forall_nil _)).
  - exact (proj1 (proj2 (proj2 (proj2 (proj2
             (wall_loop_last_wins Raylib.platform Scenario.diving
                Scenario.floor [Scenario.high_ledge; Scenario.ledge])))))
             [Scenario.high_ledge] [] Scenario.ledge _ eq_refl Y1
             (Forall_nil _)).
  - exact (proj1 (proj2 (proj2 (proj2 (proj2
             (wall_loop_last_wins Raylib.platform Scenario.diving
                Scenario.floor [Scenario.ledge; Scenario.post])))))
             [] [Scenario.post] Scenario.ledge _ eq_refl Y1
             (Forall_cons _ Y3 (Forall_nil _))).
  - exact (proj2 (proj2 (proj2 (proj2 (proj2
             (wall_loop_last_wins Raylib.platform Scenario.diving
                Scenario.floor [Scenario.ledge; Scenario.post])))))
             [Scenario.ledge] [] Scenario.post _ eq_refl X1
             (Forall_nil _)).
Defined.

(* ================================================================== *)
(** ** The double-press detector (lines 116-131) *)

Section DetectorFacts.

Variable ticks_per_ms : Z.
Variable inp : Input.
Variable this : KeyDoublePress.
Variable keys : list Z.

Lemma scan_key_spec (i : nat) (st : Z * KeyDoublePress) :
  scan_key ticks_per_ms inp i keys st =
  if IsKeyPressed inp (nth i keys 0)
  then (if (key (snd st) =? nth i keys 0)
           && (now inp i <? Int64.wrap (last_pressed (snd st)
                                        + milliseconds ticks_per_ms 300))
        then nth i keys 0 else fst st,
        {| last_pressed := now inp i; key := nth i keys 0 |})
  else st.
Proof. destruct st as [dp self]. reflexivity. Qed.

Lemma scan_key_stored (i : nat) :
  scan_key ticks_per_ms inp i keys
    (last_match ticks_per_ms inp this keys i, stored inp this keys i)
  = (last_match ticks_per_ms inp this keys (S i),
     stored inp this keys (S i)).
Proof.
  rewrite scan_key_spec. cbn [last_match stored fst snd].
  unfold matches, fresh.
  destruct (IsKeyPressed inp (nth i keys 0)); reflexivity.
Qed.

Lemma scan_loop_stored (n : nat) :
  forall i : nat,
    scan_loop ticks_per_ms inp keys n i
      (last_match ticks_per_ms inp this keys i, stored inp this keys i)
    = (last_match ticks_per_ms inp this keys (n + i),
       stored inp this keys (n + i)).
Proof.
  induction n as [|n IH]; intros i; [reflexivity|].
  cbn [scan_loop]. rewrite scan_key_stored, IH.
  now rewrite Nat.add_succ_r.
Qed.

Lemma is_double_press_stored :
  is_double_press ticks_per_ms inp this keys
  = (last_match ticks_per_ms inp this keys 4, stored inp this keys 4).
Proof. exact (scan_loop_stored 4 0). Qed.

(** [last_match n] is 0 when no iteration below [n] matches, and the key of
    the last matching iteration otherwise. *)
Lemma last_match_spec (n : nat) :
  (last_match ticks_per_ms inp this keys n = 0
   /\ forall j, (j < n)%nat -> matches ticks_per_ms inp this keys j = false)
  \/ (exists i, (i < n)%nat
        /\ matches ticks_per_ms inp this keys i = true
        /\ last_match ticks_per_ms inp this keys n = nth i keys 0
        /\ forall j, (i < j < n)%nat ->
             matches ticks_per_ms inp this keys j = false).
Proof.
  induction n as [|n IH].
  - left. split; [reflexivity|]. intros j Hj. lia.
  - cbn [last_match].
    destruct (matches ticks_per_ms inp this keys n) eqn:Hm.
    + right. exists n. repeat split; [lia|assumption|]. intros j Hj. lia.
    + destruct IH as [[H0 Hno]|(i & Hi & Hmi & Hl & Hno)].
      * left. split; [exact H0|]. intros j Hj.
        destruct (Nat.eq_dec j n) as [->|Hne]; [exact Hm|apply Hno; lia].
      * right. exists i. repeat split; [lia|assumption|assumption|].
        intros j Hj.
        destruct (Nat.eq_dec j n) as [->|Hne]; [exact Hm|apply Hno; lia].
Qed.

Lemma matches_true (i : nat) :
  matches ticks_per_ms inp this keys i = true <->
  IsKeyPressed inp (nth i keys 0) = true
  /\ key (stored inp this keys i) = nth i keys 0
  /\ now inp i < Int64.wrap (last_pressed (stored inp this keys i)
                             + milliseconds ticks_per_ms 300).
Proof.
  unfold matches, fresh.
  rewrite !andb_true_iff, Z.eqb_eq, Z.ltb_lt. reflexivity.
Qed.

(** Where the stored time plus 300ms is a 64-bit count, the test is the
    plain one. *)
Lemma matches_plain (i : nat) :
  Int64.in_range (last_pressed (stored inp this keys i)
                  + milliseconds ticks_per_ms 300) ->
  (matches ticks_per_ms inp this keys i = true <->
   IsKeyPressed inp (nth i keys 0) = true
   /\ key (stored inp this keys i) = nth i keys 0
   /\ now inp i < last_pressed (stored inp this keys i)
                  + milliseconds ticks_per_ms 300).
Proof.
  intros Hr. rewrite matches_true, (wrap64_small _ Hr). reflexivity.
Qed.

End DetectorFacts.

(** A frame in which exactly one of [main]'s keys is freshly pressed. *)
Lemma single_press (ticks_per_ms : Z) (k : Z) (t : time_point)
    (this : KeyDoublePress) :
  In k keys ->
  is_double_press ticks_per_ms (Scenario.press k t) this keys
  = (if (key this =? k)
        && (t <? Int64.wrap (last_pressed this
                             + milliseconds ticks_per_ms 300))
     then k else 0,
     {| last_pressed := t; key := k |}).
Proof.
  intros Hk.
  assert (Hcases : k = KEY_W \/ k = KEY_A \/ k = KEY_S \/ k = KEY_D).
  { cbn in Hk. intuition congruence. }
  unfold is_double_press, scan_loop. rewrite !scan_key_spec.
  destruct Hcases as [ -> | [ -> | [ -> | -> ] ] ]; reflexivity.
Qed.


(** C6, as stated, fails where the stored time lies less than 300ms before
    the largest clock reading: the sum [last_pressed + 300ms] does not fit
    the 64-bit count, the comparison is made against the wrapped sum, and a
    fresh press of the stored key 500 ticks after the stored press is not
    reported. *)
Lemma double_press_missed_at_clock_limit :
  let this := Session.late_detector in
  let inp := Session.late_press in
  Int64.in_range (last_pressed this)
  /\ Int64.in_range (now inp 1)
  /\ nth 1 keys 0 = KEY_A
  /\ IsKeyPressed inp KEY_A = true
  /\ key this = KEY_A
  /\ last_pressed this < now inp 1
  /\ now inp 1 < last_pressed this + milliseconds Scenario.ns_per_ms 300
  /\ is_double_press Scenario.ns_per_ms inp this keys
     = (0, {| last_pressed := now inp 1; key := KEY_A |})
  /\ fst (is_double_press Scenario.ns_per_ms inp this keys) <> KEY_A.
Proof.
  cbv zeta.
  split; [vm_compute; split; congruence|].
  split; [vm_compute; split; congruence|].
  split; [reflexivity|]. split; [reflexivity|]. split; [reflexivity|].
  split; [vm_compute; reflexivity|]. split; [vm_compute; reflexivity|].
  split; [vm_compute; reflexivity|]. vm_compute. congruence.
Qed.

(** C6 (amended): [is_double_press] returns a nonzero key [k] exactly when
    the last iteration that sees a fresh press of the stored key, at a clock
    reading below the stored time plus 300ms, scans [k]; where the stored
    time plus 300ms fits the clock's 64-bit count this is a press less than
    300ms after the stored one.  Every fresh press overwrites the stored key
    and time, matching or not.  On [main]'s keys, with the first press at
    such a time: two presses of one key 250ms apart give one dash event,
    350ms apart none, and presses of two different keys none, whatever the
    times. *)
Theorem is_double_press_detects :
  forall (ticks_per_ms : Z) (inp : Input) (this : KeyDoublePress)
         (ks : list Z),
    is_double_press ticks_per_ms inp this ks
      = (last_match ticks_per_ms inp this ks 4, stored inp this ks 4)
    /\ (forall k : Z, k <> 0 ->
          (fst (is_double_press ticks_per_ms inp this ks) = k <->
           exists i : nat,
             (i < 4)%nat /\ nth i ks 0 = k
             /\ IsKeyPressed inp k = true
             /\ key (stored inp this ks i) = k
             /\ now inp i < Int64.wrap (last_pressed (stored inp this ks i)
                                        + milliseconds ticks_per_ms 300)
             /\ forall j : nat, (i < j < 4)%nat ->
                  matches ticks_per_ms inp this ks j = false))
    /\ ((forall i : nat, (i < 4)%nat ->
           Int64.in_range (last_pressed (stored inp this ks i)
                           + milliseconds ticks_per_ms 300)) ->
        forall k : Z, k <> 0 ->
          (fst (is_double_press ticks_per_ms inp this ks) = k <->
           exists i : nat,
             (i < 4)%nat /\ nth i ks 0 = k
             /\ IsKeyPressed inp k = true
             /\ key (stored inp this ks i) = k
             /\ now inp i < last_pressed (stored inp this ks i)
                            + milliseconds ticks_per_ms 300
             /\ forall j : nat, (i < j < 4)%nat ->
                  ~ (IsKeyPressed inp (nth j ks 0) = true
                     /\ key (stored inp this ks j) = nth j ks 0
                     /\ now inp j < last_pressed (stored inp this ks j)
                                    + milliseconds ticks_per_ms 300)))
    /\ (forall (i : nat) (st : Z * KeyDoublePress),
          IsKeyPressed inp (nth i ks 0) = true ->
          snd (scan_key ticks_per_ms inp i ks st)
            = {| last_pressed := now inp i; key := nth i ks 0 |})
    /\ (forall (i : nat) (st : Z * KeyDoublePress),
          IsKeyPressed inp (nth i ks 0) = false ->
          scan_key ticks_per_ms inp i ks st = st)
    /\ (forall (k : Z) (t1 t2 : time_point),
          In k keys -> key this <> k ->
          Int64.in_range (t1 + milliseconds ticks_per_ms 300) ->
          let first :=
            is_double_press ticks_per_ms (Scenario.press k t1) this keys in
          let second :=
            is_double_press ticks_per_ms (Scenario.press k t2) (snd first)
              keys in
          fst first = 0
          /\ snd first = {| last_pressed := t1; key := k |}
          /\ fst second
             = (if t2 <? t1 + milliseconds ticks_per_ms 300 then k else 0)
          /\ snd second = {| last_pressed := t2; key := k |}
          /\ (0 < ticks_per_ms ->
              t2 = t1 + milliseconds ticks_per_ms 250 -> fst second = k)
          /\ (0 < ticks_per_ms ->
              t2 = t1 + milliseconds ticks_per_ms 350 -> fst second = 0))
    /\ (forall (k1 k2 : Z) (t1 t2 : time_point),
          In k1 keys -> In k2 keys -> k1 <> k2 -> key this <> k1 ->
          let first :=
            is_double_press ticks_per_ms (Scenario.press k1 t1) this keys in
          let second :=
            is_double_press ticks_per_ms (Scenario.press k2 t2) (snd first)
              keys in
          fst first = 0 /\ fst second = 0).
Proof.
  intros ticks_per_ms inp this ks.
  assert (Hiff : forall k : Z, k <> 0 ->
            (fst (is_double_press ticks_per_ms inp this ks) = k <->
             exists i : nat,
               (i < 4)%nat /\ nth i ks 0 = k
               /\ matches ticks_per_ms inp this ks i = true
               /\ forall j : nat, (i < j < 4)%nat ->
                    matches ticks_per_ms inp this ks j = false)).
  { intros k Hk0. rewrite is_double_press_stored. cbn [fst].
    destruct (last_match_spec ticks_per_ms inp this ks 4)
      as [[H0 Hno]|(i & Hi & Hmi & Hl & Hno)].
    - split.
      + intros Heq. congruence.
      + intros (i & Hi & _ & Hm & _). exfalso.
        rewrite (Hno i Hi) in Hm. discriminate.
    - split.
      + intros Heq. exists i.
        split; [exact Hi|]. split; [congruence|]. split; [exact Hmi|].
        intros j Hj. apply Hno. lia.
      + intros (i' & Hi' & Hn & Hm' & Hno').
        assert (i' = i).
        { destruct (Nat.lt_total i' i) as [Hlt|[Heq|Hgt]]; [|exact Heq|].
          - rewrite (Hno' i) in Hmi by lia. discriminate.
          - rewrite (Hno i') in Hm' by lia. discriminate. }
        subst i'. congruence. }
  split; [apply is_double_press_stored|].
  split.
  { intros k Hk0. rewrite (Hiff k Hk0). split.
    - intros (i & Hi & Hn & Hm & Hno). exists i.
      apply matches_true in Hm. rewrite Hn in Hm. tauto.
    - intros (i & Hi & Hn & Hp & Hs & Ht & Hno). exists i.
      repeat split; auto. apply matches_true. rewrite Hn. auto. }
  split.
  { intros Hrep k Hk0. rewrite (Hiff k Hk0). split.
    - intros (i & Hi & Hn & Hm & Hno). exists i.
      apply (matches_plain _ _ _ _ _ (Hrep i Hi)) in Hm. rewrite Hn in Hm.
      destruct Hm as (Hp & Hs & Ht).
      repeat split; auto.
      intros j Hj Hplain.
      apply (matches_plain _ _ _ _ _ (Hrep j (proj2 Hj))) in Hplain.
      rewrite (Hno j Hj) in Hplain. discriminate.
    - intros (i & Hi & Hn & Hp & Hs & Ht & Hno). exists i.
      repeat split; auto.
      + apply (matches_plain _ _ _ _ _ (Hrep i Hi)). rewrite Hn. auto.
      + intros j Hj.
        destruct (matches ticks_per_ms inp this ks j) eqn:Em;
          [|reflexivity].
        exfalso. apply (Hno j Hj).
        now apply (matches_plain _ _ _ _ _ (Hrep j (proj2 Hj))). }
  split.
  { intros i st Hp. rewrite scan_key_spec, Hp. reflexivity. }
  split.
  { intros i st Hp. rewrite scan_key_spec, Hp. reflexivity. }
  split.
  { intros k t1 t2 Hk Hne Hrep first second.
    assert (Hf : first = (0, {| last_pressed := t1; key := k |})).
    { unfold first. rewrite single_press by exact Hk.
      destruct (Z.eqb_spec (key this) k); [contradiction|reflexivity]. }
    assert (Hs : second
                 = (if t2 <? t1 + milliseconds ticks_per_ms 300 then k else 0,
                    {| last_pressed := t2; key := k |})).
    { unfold second. rewrite Hf. cbn [snd].
      rewrite single_press by exact Hk. cbn [key last_pressed].
      rewrite Z.eqb_refl, (wrap64_small _ Hrep). reflexivity. }
    rewrite Hf, Hs. cbn [fst snd]. repeat split.
    - intros Hpos ->. unfold milliseconds.
      destruct (Z.ltb_spec (t1 + 250 * ticks_per_ms) (t1 + 300 * ticks_per_ms));
        [reflexivity|lia].
    - intros Hpos ->. unfold milliseconds.
      destruct (Z.ltb_spec (t1 + 350 * ticks_per_ms) (t1 + 300 * ticks_per_ms));
        [lia|reflexivity]. }
  intros k1 k2 t1 t2 Hk1 Hk2 Hne Hthis first second.
  assert (Hf : first = (0, {| last_pressed := t1; key := k1 |})).
  { unfold first. rewrite single_press by exact Hk1.
    destruct (Z.eqb_spec (key this) k1); [contradiction|reflexivity]. }
  split; [rewrite Hf; reflexivity|].
  unfold second. rewrite Hf. cbn [snd].
  rewrite single_press by exact Hk2. cbn [key last_pressed fst].
  destruct (Z.eqb_spec k1 k2); [contradiction|reflexivity].
Qed.

Lemma is_double_press_detects_witness :
  In KEY_A keys /\ In KEY_D keys /\ KEY_A <> KEY_D
  /\ key Scenario.detector0 <> KEY_A
  /\ 0 < Scenario.ns_per_ms
  /\ Int64.in_range (Scenario.second_ns
                     + milliseconds Scenario.ns_per_ms 300)
  /\ (let first :=
        is_double_press Scenario.ns_per_ms
          (Scenario.press KEY_A Scenario.second_ns) Scenario.detector0 keys in
      fst first = 0
      /\ fst (is_double_press Scenario.ns_per_ms
                (Scenario.press KEY_A 1250000000) (snd first) keys) = KEY_A
      /\ fst (is_double_press Scenario.ns_per_ms
                (Scenario.press KEY_A 1350000000) (snd first) keys) = 0
      /\ fst (is_double_press Scenario.ns_per_ms
                (Scenario.press KEY_D 1000000001) (snd first) keys) = 0).
Proof.
  assert (Ia : In KEY_A keys) by (cbn; auto).
  assert (Id : In KEY_D keys) by (cbn; auto).
  assert (Nad : KEY_A <> KEY_D) by (vm_compute; congruence).
  assert (N0 : key Scenario.detector0 <> KEY_A) by (vm_compute; congruence).
  assert (Hpos : 0 < Scenario.ns_per_ms) by reflexivity.
  assert (Hrep : Int64.in_range (Scenario.second_ns
                                 + milliseconds Scenario.ns_per_ms 300))
    by (vm_compute; split; congruence).
  pose proof (is_double_press_detects Scenario.ns_per_ms
                (Scenario.idle 0) Scenario.detector0 keys)
    as (_ & _ & _ & _ & _ & Hsame & Hdiff).
  destruct (Hsame KEY_A Scenario.second_ns 1250000000 Ia N0 Hrep)
    as (F0 & _ & _ & _ & H250 & _).
  destruct (Hsame KEY_A Scenario.second_ns 1350000000 Ia N0 Hrep)
    as (_ & _ & _ & _ & _ & H350).
  destruct (Hdiff KEY_A KEY_D Scenario.second_ns 1000000001 Ia Id Nad N0)
    as (_ & D0).
  split; [exact Ia|]. split; [exact Id|]. split; [exact Nad|].
  split; [exact N0|]. split; [exact Hpos|]. split; [exact Hrep|].
  cbv zeta. split; [exact F0|].
  split; [exact (H250 Hpos eq_refl)|].
  split; [exact (H350 Hpos eq_refl)|exact D0].
Defined.

(** The stored key a match is tested against is the one the scan has
    reached, not the one the call started with: with left stored 100ms
    ago, a fresh left press alone is a double press, and the same press
    together with a fresh up press is not, because up is scanned first and
    overwrites the stored key. *)
Remark earlier_fresh_press_overwrites_stored_key :
  let this := {| last_pressed := 0; key := KEY_A |} in
  let t := milliseconds Scenario.ns_per_ms 100 in
  is_double_press Scenario.ns_per_ms (Scenario.press KEY_A t) this keys
    = (KEY_A, {| last_pressed := t; key := KEY_A |})
  /\ is_double_press Scenario.ns_per_ms (Scenario.press_up_left t) this keys
     = (0, {| last_pressed := t; key := KEY_A |}).
Proof. split; vm_compute; reflexivity. Qed.

(** With an array that scans a key twice, two iterations of one frame can
    match; the later one is returned. *)
Remark later_match_is_returned :
  let this := {| last_pressed := 0; key := KEY_A |} in
  let inp := Scenario.press_left_right 5 in
  matches Scenario.ns_per_ms inp this Scenario.repeated_keys 0 = true
  /\ matches Scenario.ns_per_ms inp this Scenario.repeated_keys 2 = true
  /\ is_double_press Scenario.ns_per_ms inp this Scenario.repeated_keys
     = (KEY_D, {| last_pressed := 5; key := KEY_D |}).
Proof. repeat split; vm_compute; reflexivity. Qed.

(** On [main]'s four distinct keys at most one iteration of a call can
    match: after the first fresh press the stored key is a key that no
    later iteration scans. *)
Remark main_keys_match_once :
  forall (ticks_per_ms : Z) (inp : Input) (this : KeyDoublePress)
         (i j : nat),
    (i < j < 4)%nat ->
    matches ticks_per_ms inp this keys i = true ->
    matches ticks_per_ms inp this keys j = false.
Proof.
  intros ticks_per_ms inp this i j Hij Hi.
  unfold matches, fresh in *.
  assert (Hc : (i = 0 /\ (j = 1 \/ j = 2 \/ j = 3))%nat
               \/ (i = 1 /\ (j = 2 \/ j = 3))%nat
               \/ (i = 2 /\ j = 3)%nat) by lia.
  destruct Hc as [ [ -> Hj ] | [ [ -> Hj ] | [ -> -> ] ] ].
  - destruct Hj as [ -> | [ -> | -> ] ]; cbn [stored nth keys] in *; unfold fresh in *;
      cbn [nth keys] in *;
      destruct (IsKeyPressed inp KEY_W); try discriminate;
      repeat match goal with
        | |- context [IsKeyPressed inp ?k] => destruct (IsKeyPressed inp k)
        end; reflexivity.
  - destruct Hj as [ -> | -> ]; cbn [stored nth keys] in *; unfold fresh in *;
      cbn [nth keys] in *;
      destruct (IsKeyPressed inp KEY_A); try discriminate;
      repeat match goal with
        | |- context [IsKeyPressed inp ?k] => destruct (IsKeyPressed inp k)
        end; reflexivity.
  - cbn [stored nth keys] in *; unfold fresh in *; cbn [nth keys] in *.
    destruct (IsKeyPressed inp KEY_S); try discriminate.
    destruct (IsKeyPressed inp KEY_D); reflexivity.
Qed.

(* ================================================================== *)
(** * Further properties of the code *)

(** ** The result of [apply_gravity], field by field *)

Lemma delta_y_apply_gravity {platform : Platform} (player : Player)
    (floor : Rectangle) (walls : list Rectangle) :
  delta_y (apply_gravity player floor walls) =
  let g := gravity_step player in
  if CheckCollisionRecs (one_below g (tentative_x g) (tentative_y g)) floor
     && (0 <? delta_y g)
  then 0 else delta_y g.
Proof.
  rewrite (apply_gravity_spec player floor walls). cbn [delta_y].
  apply delta_y_floor_check.
Qed.

Lemma delta_x_apply_gravity {platform : Platform} (player : Player)
    (floor : Rectangle) (walls : list Rectangle) :
  delta_x (apply_gravity player floor walls) = 0.
Proof. rewrite (apply_gravity_spec player floor walls). reflexivity. Qed.

Lemma size_apply_gravity {platform : Platform} (player : Player)
    (floor : Rectangle) (walls : list Rectangle) :
  width (apply_gravity player floor walls) = width player
  /\ height (apply_gravity player floor walls) = height player.
Proof. rewrite (apply_gravity_spec player floor walls). split; reflexivity. Qed.

(** ** What [read_input] leaves alone *)

Lemma read_input_static {platform : Platform} (ticks_per_ms : Z)
    (inp : Input) (w : World) :
  w_floor (read_input ticks_per_ms inp w) = w_floor w
  /\ w_walls (read_input ticks_per_ms inp w) = w_walls w
  /\ rect (w_player (read_input ticks_per_ms inp w)) = rect (w_player w)
  /\ w_double_press (read_input ticks_per_ms inp w)
     = snd (is_double_press ticks_per_ms inp (w_double_press w) keys).
Proof.
  unfold read_input.
  destruct (is_double_press ticks_per_ms inp (w_double_press w) keys)
    as [pressed dp].
  cbn [w_floor w_walls w_player w_double_press snd].
  repeat split.
  destruct (IsKeyPressed inp KEY_SPACE), (IsKeyDown inp KEY_D),
    (IsKeyDown inp KEY_A); cbn; apply rect_dash.
Qed.

Lemma delta_x_read_input {platform : Platform} (ticks_per_ms : Z)
    (inp : Input) (w : World) :
  delta_x (w_player w) = 0 ->
  delta_x (w_player (read_input ticks_per_ms inp w)) =
  dash_impulse (fst (is_double_press ticks_per_ms inp (w_double_press w) keys))
  + (if IsKeyDown inp KEY_A then - PLAYER_MOVE_SPEED else 0)
  + (if IsKeyDown inp KEY_D then PLAYER_MOVE_SPEED else 0).
Proof.
  intros H0. unfold read_input, dash_impulse.
  destruct (is_double_press ticks_per_ms inp (w_double_press w) keys)
    as [pressed dp].
  cbn [w_player fst]. unfold dash. rewrite H0.
  destruct (pressed =? KEY_A); [|destruct (pressed =? KEY_D)];
    destruct (IsKeyDown inp KEY_A), (IsKeyDown inp KEY_D),
      (IsKeyPressed inp KEY_SPACE);
    cbn [delta_x set_delta_x jump set_delta_y]; try rewrite H0;
    reflexivity.
Qed.

Lemma w_player_frame {platform : Platform} (ticks_per_ms : Z)
    (inp : Input) (w : World) :
  w_player (frame ticks_per_ms inp w) =
  apply_gravity (w_player (read_input ticks_per_ms inp w))
                (w_floor w) (w_walls w).
Proof.
  unfold frame, call_apply_gravity. cbn [w_player].
  destruct (read_input_static ticks_per_ms inp w) as (-> & -> & _).
  reflexivity.
Qed.

Lemma frame_static {platform : Platform} (ticks_per_ms : Z)
    (inp : Input) (w : World) :
  w_floor (frame ticks_per_ms inp w) = w_floor w
  /\ w_walls (frame ticks_per_ms inp w) = w_walls w
  /\ width (w_player (frame ticks_per_ms inp w)) = width (w_player w)
  /\ height (w_player (frame ticks_per_ms inp w)) = height (w_player w).
Proof.
  rewrite w_player_frame.
  destruct (size_apply_gravity (w_player (read_input ticks_per_ms inp w))
              (w_floor w) (w_walls w)) as [-> ->].
  destruct (read_input_static ticks_per_ms inp w) as (Hf & Hw & Hr & _).
  unfold frame, call_apply_gravity. cbn [w_floor w_walls].
  rewrite Hf, Hw, Hr. repeat split.
Qed.

(** ** Jumping (line 20 and lines 174-177) *)

(** A frame with a fresh press of the jump key ends with [delta_y = -19],
    wherever the player is: there is no test for standing on something, and
    the floor check cannot cancel the jump because it only zeroes a positive
    [delta_y]. *)
Theorem jump_frame :
  forall (platform : Platform) (ticks_per_ms : Z) (inp : Input) (w : World),
    IsKeyPressed inp KEY_SPACE = true ->
    delta_y (w_player (read_input ticks_per_ms inp w)) = JUMP_DELTA
    /\ delta_y (w_player (frame ticks_per_ms inp w)) = -19.
Proof.
  intros platform ticks_per_ms inp w Hj.
  assert (Hr : delta_y (w_player (read_input ticks_per_ms inp w)) = JUMP_DELTA)
    by (rewrite delta_y_read_input, Hj; reflexivity).
  split; [exact Hr|].
  rewrite w_player_frame, delta_y_apply_gravity. cbv zeta.
  rewrite delta_y_gravity_step, Hr.
  change (Int32.wrap (JUMP_DELTA + 1)) with (-19).
  change (10 <=? -19) with false. change (0 <? -19) with false.
  now rewrite andb_false_r.
Qed.

Lemma jump_frame_witness :
  IsKeyPressed Session.jump_left KEY_SPACE = true
  /\ delta_y (w_player (@frame Raylib.platform Scenario.ns_per_ms
                          Session.jump_left
                          (Session.world_with Session.resting))) = -19
  /\ delta_y (w_player (@frame Raylib.platform Scenario.ns_per_ms
                          Session.jump_left
                          (Session.world_with Scenario.falling9))) = -19.
Proof.
  assert (Hj : IsKeyPressed Session.jump_left KEY_SPACE = true) by reflexivity.
  split; [exact Hj|]. split.
  - exact (proj2 (jump_frame Raylib.platform Scenario.ns_per_ms
                    Session.jump_left (Session.world_with Session.resting) Hj)).
  - exact (proj2 (jump_frame Raylib.platform Scenario.ns_per_ms
                    Session.jump_left (Session.world_with Scenario.falling9) Hj)).
Defined.

(** ** The horizontal impulse of a frame (lines 167-173) *)

(** Starting a frame with [delta_x = 0] (as every frame after the first
    does), the [delta_x] handed to [apply_gravity] is the dash impulse
    (-50 for a double press of left, +50 of right, 0 otherwise, so a double
    press of up or down moves nothing) plus -5 if left is held plus 5 if
    right is held; holding both cancels, and the value lies within
    [-55, 55]. *)
Theorem read_input_impulse :
  forall (platform : Platform) (ticks_per_ms : Z) (inp : Input) (w : World),
    delta_x (w_player w) = 0 ->
    let pressed :=
      fst (is_double_press ticks_per_ms inp (w_double_press w) keys) in
    delta_x (w_player (read_input ticks_per_ms inp w))
      = (if pressed =? KEY_A then -50 else if pressed =? KEY_D then 50 else 0)
        + (if IsKeyDown inp KEY_A then -5 else 0)
        + (if IsKeyDown inp KEY_D then 5 else 0)
    /\ -55 <= delta_x (w_player (read_input ticks_per_ms inp w)) <= 55
    /\ (IsKeyDown inp KEY_A = true -> IsKeyDown inp KEY_D = true ->
        delta_x (w_player (read_input ticks_per_ms inp w))
          = dash_impulse pressed).
Proof.
  intros platform ticks_per_ms inp w H0 pressed.
  pose proof (delta_x_read_input ticks_per_ms inp w H0) as E.
  fold pressed in E. rewrite E. unfold dash_impulse.
  change (- PLAYER_DASH_SPEED) with (-50). change PLAYER_DASH_SPEED with 50.
  change (- PLAYER_MOVE_SPEED) with (-5). change PLAYER_MOVE_SPEED with 5.
  split; [reflexivity|]. split.
  - destruct (pressed =? KEY_A), (pressed =? KEY_D),
      (IsKeyDown inp KEY_A), (IsKeyDown inp KEY_D); lia.
  - intros -> ->. lia.
Qed.

Lemma read_input_impulse_witness :
  delta_x (w_player (Session.world_with Session.resting)) = 0
  /\ IsKeyDown Session.hold_both KEY_A = true
  /\ IsKeyDown Session.hold_both KEY_D = true
  /\ delta_x (w_player (@read_input Scenario.ns_per_ms Session.hold_both
                          (Session.world_with Session.resting))) = 0
  /\ delta_x (w_player (@read_input Scenario.ns_per_ms Session.jump_left
                          (Session.world_with Session.resting))) = -5.
Proof.
  assert (H0 : delta_x (w_player (Session.world_with Session.resting)) = 0)
    by reflexivity.
  assert (Ha : IsKeyDown Session.hold_both KEY_A = true) by reflexivity.
  assert (Hd : IsKeyDown Session.hold_both KEY_D = true) by reflexivity.
  split; [exact H0|]. split; [exact Ha|]. split; [exact Hd|]. split.
  - exact (proj2 (proj2 (read_input_impulse Raylib.platform
             Scenario.ns_per_ms Session.hold_both
             (Session.world_with Session.resting) H0)) Ha Hd).
  - exact (proj1 (read_input_impulse Raylib.platform
             Scenario.ns_per_ms Session.jump_left
             (Session.world_with Session.resting) H0)).
Defined.

(* ================================================================== *)
(** ** The loop over several frames *)

Section RunFacts.

Context {platform : Platform}.
Variable ticks_per_ms : Z.

Lemma run_cons (inp : Input) (inps : list Input) (w : World) :
  run ticks_per_ms (inp :: inps) w
  = run ticks_per_ms inps (frame ticks_per_ms inp w).
Proof. reflexivity. Qed.

Lemma frame_delta_y_bounds (inp : Input) (w : World) :
  -20 <= delta_y (w_player w) <= 10 ->
  -19 <= delta_y (w_player (frame ticks_per_ms inp w)) <= 10.
Proof.
  intros Hb. rewrite w_player_frame, delta_y_apply_gravity. cbv zeta.
  rewrite delta_y_gravity_step, delta_y_read_input.
  set (d := if IsKeyPressed inp KEY_SPACE then JUMP_DELTA
            else delta_y (w_player w)).
  assert (Hd : -20 <= d <= 10)
    by (unfold d, JUMP_DELTA; destruct (IsKeyPressed inp KEY_SPACE); lia).
  rewrite wrap_small
    by (unfold Int32.in_range, Int32.min_int, Int32.max_int; lia).
  destruct (10 <=? d + 1) eqn:E10;
    [apply Z.leb_le in E10|apply Z.leb_gt in E10];
    destruct (CheckCollisionRecs _ _ && _); lia.
Qed.

Lemma frame_delta_x (inp : Input) (w : World) :
  delta_x (w_player (frame ticks_per_ms inp w)) = 0.
Proof. rewrite w_player_frame. apply delta_x_apply_gravity. Qed.

End RunFacts.

(** Whatever the keyboard and the clock do, a world whose [delta_y] lies in
    [-20, 10] (as [main]'s initial world does) keeps it there; after at
    least one frame [delta_y] lies in [-19, 10] and [delta_x] is 0.  So the
    gravity step of a running game never takes [delta_y] out of the range of
    [int]. *)
Theorem run_velocity_bounds :
  forall (platform : Platform) (ticks_per_ms : Z) (inps : list Input)
         (w : World),
    -20 <= delta_y (w_player w) <= 10 ->
    -20 <= delta_y (w_player (run ticks_per_ms inps w)) <= 10
    /\ (inps <> [] ->
        -19 <= delta_y (w_player (run ticks_per_ms inps w))
        /\ delta_x (w_player (run ticks_per_ms inps w)) = 0)
    /\ Int32.wrap (delta_y (w_player (run ticks_per_ms inps w)) + 1)
       = delta_y (w_player (run ticks_per_ms inps w)) + 1.
Proof.
  intros platform ticks_per_ms inps.
  assert (Hmain : forall w : World,
            -20 <= delta_y (w_player w) <= 10 ->
            -20 <= delta_y (w_player (run ticks_per_ms inps w)) <= 10
            /\ (inps <> [] ->
                -19 <= delta_y (w_player (run ticks_per_ms inps w))
                /\ delta_x (w_player (run ticks_per_ms inps w)) = 0)).
  { induction inps as [|inp rest IH]; intros w Hb.
    - split; [exact Hb|]. intros Hne. contradiction.
    - rewrite run_cons.
      pose proof (frame_delta_y_bounds ticks_per_ms inp w Hb) as Hf.
      assert (Hf' : -20 <= delta_y (w_player (frame ticks_per_ms inp w)) <= 10)
        by lia.
      destruct (IH _ Hf') as [Hin Hne]. split; [exact Hin|]. intros _.
      destruct rest as [|inp' rest'].
      + cbn [run fold_left]. split; [lia|apply frame_delta_x].
      + apply Hne. discriminate. }
  intros w Hb. destruct (Hmain w Hb) as [Hin Hne].
  split; [exact Hin|]. split; [exact Hne|].
  apply wrap_small. unfold Int32.in_range, Int32.min_int, Int32.max_int. lia.
Qed.

Lemma run_velocity_bounds_witness :
  -20 <= delta_y (w_player (initial_world 0)) <= 10
  /\ Session.double_tap_left <> []
  /\ -19 <= delta_y (w_player (@run Raylib.platform Scenario.ns_per_ms
                                 Session.double_tap_left (initial_world 0)))
     <= 10
  /\ delta_x (w_player (@run Raylib.platform Scenario.ns_per_ms
                          Session.double_tap_left (initial_world 0))) = 0.
Proof.
  assert (Hb : -20 <= delta_y (w_player (initial_world 0)) <= 10)
    by (cbn; lia).
  assert (Hne : Session.double_tap_left <> []) by discriminate.
  destruct (run_velocity_bounds Raylib.platform Scenario.ns_per_ms
              Session.double_tap_left (initial_world 0) Hb)
    as (Hin & Hn & _).
  destruct (Hn Hne) as [Hlo Hx].
  split; [exact Hb|]. split; [exact Hne|]. split; [|exact Hx].
  split; [exact Hlo|exact (proj2 Hin)].
Defined.

(** The level and the player's size are fixed for the whole run: no frame
    changes the floor, the walls, or the player's [width] and [height], and
    [read_input] does not move the player's rectangle at all. *)
Theorem run_keeps_level :
  forall (platform : Platform) (ticks_per_ms : Z) (inps : list Input)
         (w : World),
    w_floor (run ticks_per_ms inps w) = w_floor w
    /\ w_walls (run ticks_per_ms inps w) = w_walls w
    /\ width (w_player (run ticks_per_ms inps w)) = width (w_player w)
    /\ height (w_player (run ticks_per_ms inps w)) = height (w_player w)
    /\ (forall inp : Input,
          rect (w_player (read_input ticks_per_ms inp w)) = rect (w_player w)).
Proof.
  intros platform ticks_per_ms inps.
  assert (Hmain : forall w : World,
            w_floor (run ticks_per_ms inps w) = w_floor w
            /\ w_walls (run ticks_per_ms inps w) = w_walls w
            /\ width (w_player (run ticks_per_ms inps w)) = width (w_player w)
            /\ height (w_player (run ticks_per_ms inps w))
               = height (w_player w)).
  { induction inps as [|inp rest IH]; intros w; [repeat split|].
    rewrite run_cons.
    destruct (IH (frame ticks_per_ms inp w)) as (-> & -> & -> & ->).
    apply frame_static. }
  intros w. destruct (Hmain w) as (A & B & C & D).
  repeat split; try assumption.
  intros inp. apply read_input_static.
Qed.

(** While the floor probe misses the floor and no jump is pressed, every
    frame adds 1 to [delta_y] until it reaches 10: after [n] such frames
    [delta_y] is [min (delta_y + n) 10]. *)
Theorem free_fall_speed :
  forall (platform : Platform) (ticks_per_ms : Z) (inps : list Input)
         (w : World),
    Int32.in_range (delta_y (w_player w)) ->
    delta_y (w_player w) <= 10 ->
    Forall (fun inp => IsKeyPressed inp KEY_SPACE = false) inps ->
    airborne ticks_per_ms inps w = true ->
    delta_y (w_player (run ticks_per_ms inps w))
      = Z.min (delta_y (w_player w) + Z.of_nat (length inps)) 10.
Proof.
  intros platform ticks_per_ms inps.
  induction inps as [|inp rest IH]; intros w Hr Hle Hnj Hair.
  - cbn [run fold_left length Z.of_nat]. lia.
  - rewrite run_cons. inversion Hnj as [|? ? Hj Hrest]; subst.
    cbn [airborne] in Hair. apply andb_true_iff in Hair.
    destruct Hair as [Hmiss Hair].
    assert (Hstep : delta_y (w_player (frame ticks_per_ms inp w))
                    = Z.min (delta_y (w_player w) + 1) 10).
    { rewrite w_player_frame, delta_y_apply_gravity. cbv zeta.
      unfold misses_floor in Hmiss. apply negb_true_iff in Hmiss.
      destruct (read_input_static ticks_per_ms inp w) as (Hf & _).
      rewrite Hf in Hmiss. rewrite Hmiss. cbn [andb].
      rewrite delta_y_gravity_step, delta_y_read_input, Hj.
      unfold Int32.in_range, Int32.min_int, Int32.max_int in Hr.
      rewrite wrap_small
        by (unfold Int32.in_range, Int32.min_int, Int32.max_int; lia).
      destruct (10 <=? delta_y (w_player w) + 1) eqn:E;
        [apply Z.leb_le in E|apply Z.leb_gt in E]; lia. }
    rewrite IH; try assumption.
    + rewrite Hstep. cbn [length]. lia.
    + rewrite Hstep. unfold Int32.in_range, Int32.min_int, Int32.max_int in *.
      lia.
    + rewrite Hstep. lia.
Qed.

Lemma free_fall_speed_witness :
  Int32.in_range (delta_y (w_player (initial_world 0)))
  /\ delta_y (w_player (initial_world 0)) <= 10
  /\ Forall (fun inp => IsKeyPressed inp KEY_SPACE = false) Session.three_idle
  /\ @airborne Raylib.platform Scenario.ns_per_ms Session.three_idle
       (initial_world 0) = true
  /\ delta_y (w_player (@run Raylib.platform Scenario.ns_per_ms
                          Session.three_idle (initial_world 0))) = 3.
Proof.
  assert (Hr : Int32.in_range (delta_y (w_player (initial_world 0))))
    by (vm_compute; split; congruence).
  assert (Hle : delta_y (w_player (initial_world 0)) <= 10)
    by (vm_compute; congruence).
  assert (Hnj : Forall (fun inp => IsKeyPressed inp KEY_SPACE = false)
                  Session.three_idle)
    by (repeat constructor).
  assert (Hair : @airborne Raylib.platform Scenario.ns_per_ms
                   Session.three_idle (initial_world 0) = true)
    by (vm_compute; reflexivity).
  split; [exact Hr|]. split; [exact Hle|]. split; [exact Hnj|].
  split; [exact Hair|].
  exact (free_fall_speed Raylib.platform Scenario.ns_per_ms
           Session.three_idle (initial_world 0) Hr Hle Hnj Hair).
Defined.

(* ================================================================== *)
(** ** Which walls matter, and in which order *)

Section WallOrderFacts.

Context {platform : Platform}.

Lemma snap_none_of_no_collision (pl nr wall : Rectangle) :
  collides nr wall = false ->
  x_snap pl nr wall = None /\ y_snap pl nr wall = None.
Proof. unfold x_snap, y_snap. intros ->. split; reflexivity. Qed.

Lemma last_snap_filter (snap : Rectangle -> option float)
    (keep : Rectangle -> bool) (walls : list Rectangle) :
  (forall w, keep w = false -> snap w = None) ->
  forall start : float,
    last_snap (map snap (filter keep walls)) start
    = last_snap (map snap walls) start.
Proof.
  intros Hk. induction walls as [|w rest IH]; intros start; [reflexivity|].
  cbn [filter map]. destruct (keep w) eqn:E.
  - cbn [map last_snap]. destruct (snap w); apply IH.
  - rewrite (Hk w E). cbn [last_snap]. apply IH.
Qed.

(** With agreeing snaps the variable ends at the common value as soon as
    one wall assigns it. *)
Lemma last_snap_agree (snap : Rectangle -> option float)
    (walls : list Rectangle) (w : Rectangle) (v start : float) :
  snaps_agree snap walls -> In w walls -> snap w = Some v ->
  last_snap (map snap walls) start = v.
Proof.
  intros Hag Hin Hw.
  assert (Hall : forall w' v', In w' walls -> snap w' = Some v' -> v' = v).
  { intros w' v' Hin' Hw'. exact (Hag w' w v' v Hin' Hin Hw' Hw). }
  clear Hag. destruct (in_split _ _ Hin) as (pre & post & ->).
  rewrite map_app, last_snap_app. cbn [map last_snap]. rewrite Hw.
  assert (Hpost : forall w' v', In w' post -> snap w' = Some v' -> v' = v).
  { intros w' v' Hin'. apply Hall. apply in_or_app. right. now right. }
  clear Hall Hin. induction post as [|p post IH]; [reflexivity|].
  cbn [map last_snap]. destruct (snap p) as [v'|] eqn:Ep.
  - rewrite (Hpost p v' (or_introl eq_refl) Ep).
    apply IH. intros w' v'' Hin'. apply Hpost. now right.
  - apply IH. intros w' v'' Hin'. apply Hpost. now right.
Qed.

Lemma snap_fires_or_not (snap : Rectangle -> option float)
    (walls : list Rectangle) :
  (exists w v, In w walls /\ snap w = Some v)
  \/ Forall (fun w => snap w = None) walls.
Proof.
  induction walls as [|w rest [(w' & v & Hin & Hs)|Hnone]].
  - right. constructor.
  - left. exists w', v. split; [now right|exact Hs].
  - destruct (snap w) as [v|] eqn:E.
    + left. exists w, v. split; [now left|exact E].
    + right. now constructor.
Qed.

Lemma last_snap_permutation (snap : Rectangle -> option float)
    (walls walls' : list Rectangle) (start : float) :
  Permutation walls walls' ->
  snaps_agree snap walls ->
  last_snap (map snap walls) start = last_snap (map snap walls') start.
Proof.
  intros Hp Hag.
  assert (Hag' : snaps_agree snap walls').
  { intros w1 w2 v1 v2 H1 H2. apply Hag;
      eapply Permutation_in; try eassumption;
      now apply Permutation_sym. }
  destruct (snap_fires_or_not snap walls) as [(w & v & Hin & Hs)|Hnone].
  - rewrite (last_snap_agree snap walls w v start Hag Hin Hs).
    symmetry. apply (last_snap_agree snap walls' w v start Hag'); [|exact Hs].
    eapply Permutation_in; eassumption.
  - rewrite !last_snap_none; try reflexivity; apply Forall_map.
    + eapply Permutation_Forall; eassumption.
    + exact Hnone.
Qed.

Lemma apply_gravity_snaps (player : Player) (floor : Rectangle)
    (walls : list Rectangle) :
  let g := gravity_step player in
  let nr := next_rect g (tentative_x g) (tentative_y g) in
  apply_gravity player floor walls =
  mkPlayer
    (mkRectangle
       (last_snap (map (x_snap player nr) walls) (tentative_x g))
       (last_snap (map (y_snap player nr) walls)
          (snd (floor_check g floor (tentative_x g) (tentative_y g))))
       (width player) (height player))
    0
    (delta_y (fst (floor_check g floor (tentative_x g) (tentative_y g)))).
Proof.
  intros g nr. rewrite (apply_gravity_spec player floor walls).
  unfold resolved. fold g. fold nr. rewrite wall_loop_snap. cbn [fst snd].
  rewrite rect_floor_check. unfold g at 1 3. rewrite rect_gravity_step.
  reflexivity.
Qed.

End WallOrderFacts.

(** Only the walls that pass the test of line 69 take part: dropping every
    wall whose intersection with the swept rectangle is degenerate leaves
    the result of [apply_gravity] as it is, and when no wall passes the
    result is that of an empty wall list. *)
Theorem only_colliding_walls_matter :
  forall (platform : Platform) (player : Player) (floor : Rectangle)
         (walls : list Rectangle),
    let g := gravity_step player in
    let nr := next_rect g (tentative_x g) (tentative_y g) in
    apply_gravity player floor walls
      = apply_gravity player floor (filter (collides nr) walls)
    /\ (Forall (fun w => collides nr w = false) walls ->
        apply_gravity player floor walls = apply_gravity player floor []).
Proof.
  intros platform player floor walls g nr.
  assert (E : apply_gravity player floor walls
              = apply_gravity player floor (filter (collides nr) walls)).
  { rewrite (apply_gravity_snaps player floor walls),
      (apply_gravity_snaps player floor (filter (collides nr) walls)).
    cbv zeta. fold g. fold nr.
    rewrite !last_snap_filter; [reflexivity| |];
      intros w Hw; now apply snap_none_of_no_collision. }
  split; [exact E|]. intros Hall. rewrite E.
  assert (Hnil : filter (collides nr) walls = []).
  { clear E. induction Hall as [|w rest Hw _ IH]; [reflexivity|].
    cbn [filter]. rewrite Hw. exact IH. }
  now rewrite Hnil.
Qed.

Lemma only_colliding_walls_matter_witness :
  (let g := gravity_step Scenario.hovering in
   let nr := @next_rect Raylib.platform g (tentative_x g) (tentative_y g) in
   Forall (fun w => @collides Raylib.platform nr w = false) Scenario.walls)
  /\ @apply_gravity Raylib.platform Scenario.hovering Scenario.floor
       Scenario.walls
     = @apply_gravity Raylib.platform Scenario.hovering Scenario.floor [].
Proof.
  assert (Hall : let g := gravity_step Scenario.hovering in
                 let nr := @next_rect Raylib.platform g (tentative_x g)
                             (tentative_y g) in
                 Forall (fun w => @collides Raylib.platform nr w = false)
                   Scenario.walls).
  { cbv zeta. repeat constructor; vm_compute; reflexivity. }
  split; [exact Hall|].
  exact (proj2 (only_colliding_walls_matter Raylib.platform Scenario.hovering
                  Scenario.floor Scenario.walls) Hall).
Defined.

(** The order of the walls matters only when two of them assign different
    values on one axis: if on each axis all walls that fire assign the same
    value, every reordering of the wall list gives the same player. *)
Theorem wall_order_irrelevant_when_snaps_agree :
  forall (platform : Platform) (player : Player) (floor : Rectangle)
         (walls walls' : list Rectangle),
    let g := gravity_step player in
    let nr := next_rect g (tentative_x g) (tentative_y g) in
    Permutation walls walls' ->
    snaps_agree (x_snap player nr) walls ->
    snaps_agree (y_snap player nr) walls ->
    apply_gravity player floor walls = apply_gravity player floor walls'.
Proof.
  intros platform player floor walls walls' g nr Hp Hx Hy.
  rewrite (apply_gravity_snaps player floor walls),
    (apply_gravity_snaps player floor walls').
  cbv zeta. fold g. fold nr.
  rewrite (last_snap_permutation (x_snap player nr) walls walls' _ Hp Hx).
  rewrite (last_snap_permutation (y_snap player nr) walls walls' _ Hp Hy).
  reflexivity.
Qed.

Lemma wall_order_irrelevant_when_snaps_agree_witness :
  let g := gravity_step Scenario.diving in
  let nr := @next_rect Raylib.platform g (tentative_x g) (tentative_y g) in
  Permutation [Scenario.ledge; Scenario.post] [Scenario.post; Scenario.ledge]
  /\ snaps_agree (@x_snap Raylib.platform Scenario.diving nr)
       [Scenario.ledge; Scenario.post]
  /\ snaps_agree (@y_snap Raylib.platform Scenario.diving nr)
       [Scenario.ledge; Scenario.post]
  /\ @apply_gravity Raylib.platform Scenario.diving Scenario.floor
       [Scenario.ledge; Scenario.post]
     = @apply_gravity Raylib.platform Scenario.diving Scenario.floor
         [Scenario.post; Scenario.ledge].
Proof.
  intros g nr.
  assert (Hp : Permutation [Scenario.ledge; Scenario.post]
                 [Scenario.post; Scenario.ledge]) by apply perm_swap.
  assert (Hx : snaps_agree (@x_snap Raylib.platform Scenario.diving nr)
                 [Scenario.ledge; Scenario.post]).
  { intros w1 w2 v1 v2 H1 H2 E1 E2.
    destruct H1 as [<-|[<-|[]]]; destruct H2 as [<-|[<-|[]]];
      vm_compute in E1; vm_compute in E2; congruence. }
  assert (Hy : snaps_agree (@y_snap Raylib.platform Scenario.diving nr)
                 [Scenario.ledge; Scenario.post]).
  { intros w1 w2 v1 v2 H1 H2 E1 E2.
    destruct H1 as [<-|[<-|[]]]; destruct H2 as [<-|[<-|[]]];
      vm_compute in E1; vm_compute in E2; congruence. }
  split; [exact Hp|]. split; [exact Hx|]. split; [exact Hy|].
  exact (wall_order_irrelevant_when_snaps_agree Raylib.platform
           Scenario.diving Scenario.floor _ _ Hp Hx Hy).
Defined.

(** Walls stop the player but never touch the velocity: [delta_y] after the
    call is the one the floor check alone leaves, whatever the walls are.
    So a player stopped by the top of a wall is put at
    [wall.y - player.height] and keeps its falling speed when the floor
    probe misses the floor; when the probe hits, the wall's [y] replaces the
    floor's while the floor check still zeroes a positive [delta_y]. *)
Theorem wall_stop_leaves_velocity :
  forall (platform : Platform) (player : Player) (floor : Rectangle)
         (walls : list Rectangle),
    let g := gravity_step player in
    let nr := next_rect g (tentative_x g) (tentative_y g) in
    let hit := CheckCollisionRecs
                 (one_below g (tentative_x g) (tentative_y g)) floor in
    delta_y (apply_gravity player floor walls)
      = delta_y (apply_gravity player floor [])
    /\ (forall (pre post : list Rectangle) (wall : Rectangle),
          walls = pre ++ wall :: post ->
          collides nr wall = true ->
          crossed_from_above player nr wall = true ->
          crossed_from_below player nr wall = false ->
          Forall (fun w => y_snap player nr w = None) post ->
          y (apply_gravity player floor walls)
            = F32.sub (y wall) (height player)
          /\ delta_y (apply_gravity player floor walls)
             = (if hit && (0 <? delta_y g) then 0 else delta_y g)
          /\ (hit = false ->
              delta_y (apply_gravity player floor walls) = delta_y g)).
Proof.
  intros platform player floor walls g nr hit.
  split; [now rewrite !delta_y_apply_gravity|].
  intros pre post wall -> Hc Ha Hb Hpost.
  assert (Hs : y_snap player nr wall = Some (F32.sub (y wall) (height player))).
  { unfold y_snap. now rewrite Hc, Hb, Ha. }
  split; [|split].
  - rewrite (apply_gravity_snaps player floor (pre ++ wall :: post)).
    cbn [y rect]. fold g. fold nr. now apply last_snap_last.
  - now rewrite delta_y_apply_gravity.
  - intros Hh. rewrite delta_y_apply_gravity. cbv zeta. fold g.
    fold hit. now rewrite Hh.
Qed.

Lemma wall_stop_leaves_velocity_witness :
  (let g := gravity_step Scenario.diving in
   let nr := @next_rect Raylib.platform g (tentative_x g) (tentative_y g) in
   @collides Raylib.platform nr Scenario.ledge = true
   /\ crossed_from_above Scenario.diving nr Scenario.ledge = true
   /\ crossed_from_below Scenario.diving nr Scenario.ledge = false
   /\ Raylib.CheckCollisionRecs
        (one_below g (tentative_x g) (tentative_y g)) Scenario.floor = false)
  /\ y (@apply_gravity Raylib.platform Scenario.diving Scenario.floor
          [Scenario.ledge]) = F32.of_int 460
  /\ delta_y (@apply_gravity Raylib.platform Scenario.diving Scenario.floor
                [Scenario.ledge]) = 10
  /\ (let g := gravity_step Session.sinking in
      let nr := @next_rect Raylib.platform g (tentative_x g) (tentative_y g) in
      @collides Raylib.platform nr Session.low_ledge = true
      /\ crossed_from_above Session.sinking nr Session.low_ledge = true
      /\ crossed_from_below Session.sinking nr Session.low_ledge = false
      /\ Raylib.CheckCollisionRecs
           (one_below g (tentative_x g) (tentative_y g)) Scenario.floor = true)
  /\ y (@apply_gravity Raylib.platform Session.sinking Scenario.floor
          [Session.low_ledge]) = F32.of_int 555
  /\ delta_y (@apply_gravity Raylib.platform Session.sinking Scenario.floor
                [Session.low_ledge]) = 0.
Proof.
  pose (g := gravity_step Scenario.diving).
  pose (nr := @next_rect Raylib.platform g (tentative_x g) (tentative_y g)).
  pose (g' := gravity_step Session.sinking).
  pose (nr' := @next_rect Raylib.platform g' (tentative_x g') (tentative_y g')).
  assert (C1 : @collides Raylib.platform nr Scenario.ledge = true)
    by (vm_compute; reflexivity).
  assert (A1 : crossed_from_above Scenario.diving nr Scenario.ledge = true)
    by (vm_compute; reflexivity).
  assert (B1 : crossed_from_below Scenario.diving nr Scenario.ledge = false)
    by (vm_compute; reflexivity).
  assert (F1 : @CheckCollisionRecs Raylib.platform
                 (one_below g (tentative_x g) (tentative_y g)) Scenario.floor
               = false) by (vm_compute; reflexivity).
  assert (C2 : @collides Raylib.platform nr' Session.low_ledge = true)
    by (vm_compute; reflexivity).
  assert (A2 : crossed_from_above Session.sinking nr' Session.low_ledge = true)
    by (vm_compute; reflexivity).
  assert (B2 : crossed_from_below Session.sinking nr' Session.low_ledge = false)
    by (vm_compute; reflexivity).
  assert (F2 : @CheckCollisionRecs Raylib.platform
                 (one_below g' (tentative_x g') (tentative_y g'))
                 Scenario.floor = true) by (vm_compute; reflexivity).
  destruct (proj2 (wall_stop_leaves_velocity Raylib.platform Scenario.diving
                     Scenario.floor [Scenario.ledge])
              [] [] Scenario.ledge eq_refl C1 A1 B1 (Forall_nil _))
    as (Y1 & _ & D1).
  destruct (proj2 (wall_stop_leaves_velocity Raylib.platform Session.sinking
                     Scenario.floor [Session.low_ledge])
              [] [] Session.low_ledge eq_refl C2 A2 B2 (Forall_nil _))
    as (Y2 & D2 & _).
  split; [repeat split; assumption|].
  split; [rewrite Y1; vm_compute; reflexivity|].
  split; [rewrite (D1 F1); vm_compute; reflexivity|].
  split; [repeat split; assumption|].
  split; [rewrite Y2; vm_compute; reflexivity|].
  rewrite D2. vm_compute. reflexivity.
Defined.

(* ================================================================== *)
(** ** Standing still *)

Lemma add_zero (a : float) :
  a <> S754_zero true -> F32.add a (F32.of_int 0) = a.
Proof.
  intros Hn. destruct a as [[|]| | |]; try reflexivity. contradiction.
Qed.

(** A player standing on the floor stays where it is: with no velocity,
    [y = floor.y - height], the floor probe on the floor and no wall
    intersecting the swept rectangle, [apply_gravity] returns the player
    unchanged (gravity raises [delta_y] to 1 and the floor check takes it
    back to 0).  The only [x] excluded is the negative zero, which the
    addition of [delta_x = 0] turns into the positive one. *)
Theorem standing_player_stays :
  forall (platform : Platform) (player : Player) (floor : Rectangle)
         (walls : list Rectangle),
    let g := gravity_step player in
    let nr := next_rect g (tentative_x g) (tentative_y g) in
    delta_x player = 0 ->
    delta_y player = 0 ->
    x player <> S754_zero true ->
    y player = F32.sub (y floor) (height player) ->
    CheckCollisionRecs (one_below g (tentative_x g) (tentative_y g)) floor
      = true ->
    Forall (fun w => collides nr w = false) walls ->
    apply_gravity player floor walls = player.
Proof.
  intros platform player floor walls g nr Hdx Hdy Hx Hy Hhit Hwalls.
  rewrite (apply_gravity_snaps player floor walls). cbv zeta. fold g. fold nr.
  assert (Hxs : Forall (fun s => s = None) (map (x_snap player nr) walls)).
  { apply Forall_map. eapply Forall_impl; [|exact Hwalls].
    intros w Hw. now apply snap_none_of_no_collision. }
  assert (Hys : Forall (fun s => s = None) (map (y_snap player nr) walls)).
  { apply Forall_map. eapply Forall_impl; [|exact Hwalls].
    intros w Hw. now apply snap_none_of_no_collision. }
  rewrite (last_snap_none _ _ Hxs), (last_snap_none _ _ Hys).
  rewrite floor_check_spec, Hhit. cbn [fst snd delta_y set_delta_y].
  assert (Hg : delta_y g = 1).
  { unfold g. rewrite delta_y_gravity_step, Hdy. reflexivity. }
  assert (Hr : rect g = rect player) by apply rect_gravity_step.
  assert (Hgx : delta_x g = 0)
    by (unfold g; rewrite delta_x_gravity_step; exact Hdx).
  rewrite Hg. change (0 <? 1) with true. cbv iota.
  unfold tentative_x. rewrite Hgx, Hr, add_zero by exact Hx.
  rewrite <- Hy.
  destruct player as [[px py pw ph] pdx pdy]. cbn in *. now subst.
Qed.

Lemma standing_player_stays_witness :
  (let g := gravity_step Session.resting in
   let nr := @next_rect Raylib.platform g (tentative_x g) (tentative_y g) in
   delta_x Session.resting = 0 /\ delta_y Session.resting = 0
   /\ x Session.resting <> S754_zero true
   /\ y Session.resting
      = F32.sub (y Scenario.floor) (height Session.resting)
   /\ Raylib.CheckCollisionRecs
        (one_below g (tentative_x g) (tentative_y g)) Scenario.floor = true
   /\ Forall (fun w => @collides Raylib.platform nr w = false) Scenario.walls)
  /\ @apply_gravity Raylib.platform Session.resting Scenario.floor
       Scenario.walls = Session.resting.
Proof.
  pose (g := gravity_step Session.resting).
  pose (nr := @next_rect Raylib.platform g (tentative_x g) (tentative_y g)).
  assert (H1 : delta_x Session.resting = 0) by reflexivity.
  assert (H2 : delta_y Session.resting = 0) by reflexivity.
  assert (H3 : x Session.resting <> S754_zero true)
    by (vm_compute; congruence).
  assert (H4 : y Session.resting
               = F32.sub (y Scenario.floor) (height Session.resting))
    by (vm_compute; reflexivity).
  assert (H5 : @CheckCollisionRecs Raylib.platform
                 (one_below g (tentative_x g) (tentative_y g)) Scenario.floor
               = true) by (vm_compute; reflexivity).
  assert (H6 : Forall (fun w => @collides Raylib.platform nr w = false)
                 Scenario.walls)
    by (repeat constructor; vm_compute; reflexivity).
  split; [repeat split; assumption|].
  exact (standing_player_stays Raylib.platform Session.resting Scenario.floor
           Scenario.walls H1 H2 H3 H4 H5 H6).
Defined.

(* ================================================================== *)
(** ** Dashing back and forth *)

Lemma wrap_wrap_add (a b : Z) :
  Int32.wrap (Int32.wrap a + b) = Int32.wrap (a + b).
Proof.
  unfold Int32.wrap.
  replace ((a - Int32.min_int) mod Int32.modulus + Int32.min_int + b
           - Int32.min_int)
    with ((a - Int32.min_int) mod Int32.modulus + b) by lia.
  rewrite Zplus_mod_idemp_l. f_equal. f_equal. lia.
Qed.

(** A dash to the right undoes a dash to the left, and the other way
    round, for every [delta_x] an [int] can hold: the two stores wrap
    around consistently even where one dash alone leaves the range. *)
Theorem dash_round_trip :
  forall this : Player,
    Int32.in_range (delta_x this) ->
    dash (dash this KEY_A) KEY_D = this
    /\ dash (dash this KEY_D) KEY_A = this.
Proof.
  intros [r dx dy] Hr. cbn [delta_x] in Hr.
  unfold dash. cbn -[Int32.wrap]. unfold set_delta_x. cbn -[Int32.wrap].
  change PLAYER_DASH_SPEED with 50.
  split; f_equal.
  - replace (dx - 50) with (dx + -50) by lia.
    rewrite wrap_wrap_add. replace (dx + -50 + 50) with dx by lia.
    now apply wrap_small.
  - replace (Int32.wrap (dx + 50) - 50) with (Int32.wrap (dx + 50) + -50)
      by lia.
    rewrite wrap_wrap_add. replace (dx + 50 + -50) with dx by lia.
    now apply wrap_small.
Qed.

Lemma dash_round_trip_witness :
  Int32.in_range (delta_x Session.leftmost)
  /\ delta_x (dash Session.leftmost KEY_A) = 2147483608
  /\ dash (dash Session.leftmost KEY_A) KEY_D = Session.leftmost.
Proof.
  assert (Hr : Int32.in_range (delta_x Session.leftmost))
    by (vm_compute; split; congruence).
  split; [exact Hr|]. split; [vm_compute; reflexivity|].
  exact (proj1 (dash_round_trip Session.leftmost Hr)).
Defined.

(* ================================================================== *)
(** ** More on the detector *)

Lemma stored_spec (inp : Input) (this : KeyDoublePress) (ks : list Z)
    (n : nat) :
  stored inp this ks n = this
  \/ exists i, (i < n)%nat
       /\ IsKeyPressed inp (nth i ks 0) = true
       /\ stored inp this ks n
          = {| last_pressed := now inp i; key := nth i ks 0 |}.
Proof.
  induction n as [|n IH]; [now left|].
  cbn [stored]. unfold fresh.
  destruct (IsKeyPressed inp (nth n ks 0)) eqn:E.
  - right. exists n. repeat split; [lia|exact E].
  - destruct IH as [IH|(i & Hi & Hp & Hs)]; [now left|].
    right. exists i. repeat split; [lia|exact Hp|exact Hs].
Qed.

(** A frame in which none of the four scanned keys is freshly pressed
    returns 0 and leaves the stored key and time as they are: frames
    without a press do not use up the 300ms. *)
Theorem is_double_press_without_press :
  forall (ticks_per_ms : Z) (inp : Input) (this : KeyDoublePress)
         (ks : list Z),
    (forall i : nat, (i < 4)%nat -> IsKeyPressed inp (nth i ks 0) = false) ->
    is_double_press ticks_per_ms inp this ks = (0, this).
Proof.
  intros ticks_per_ms inp this ks Hno.
  unfold is_double_press, scan_loop.
  rewrite (scan_key_spec ticks_per_ms inp ks 0), (Hno 0%nat) by lia.
  rewrite (scan_key_spec ticks_per_ms inp ks 1), (Hno 1%nat) by lia.
  rewrite (scan_key_spec ticks_per_ms inp ks 2), (Hno 2%nat) by lia.
  rewrite (scan_key_spec ticks_per_ms inp ks 3), (Hno 3%nat) by lia.
  reflexivity.
Qed.

Lemma is_double_press_without_press_witness :
  (forall i : nat, (i < 4)%nat ->
     IsKeyPressed (Scenario.idle 5) (nth i keys 0) = false)
  /\ is_double_press Scenario.ns_per_ms (Scenario.idle 5)
       {| last_pressed := 3; key := KEY_A |} keys
     = (0, {| last_pressed := 3; key := KEY_A |}).
Proof.
  assert (Hno : forall i : nat, (i < 4)%nat ->
                  IsKeyPressed (Scenario.idle 5) (nth i keys 0) = false)
    by (intros i _; reflexivity).
  split; [exact Hno|].
  exact (is_double_press_without_press Scenario.ns_per_ms (Scenario.idle 5)
           {| last_pressed := 3; key := KEY_A |} keys Hno).
Defined.

(** [is_double_press] never invents a key: what it returns is 0 or one of
    the four scanned keys, freshly pressed in this frame; the key it stores
    is the one it started with or a scanned, freshly pressed key, stored
    together with the clock reading of its iteration.  On [main]'s array the
    result is therefore 0, up, left, down or right. *)
Theorem is_double_press_returns_scanned_key :
  forall (ticks_per_ms : Z) (inp : Input) (this : KeyDoublePress)
         (ks : list Z),
    let r := is_double_press ticks_per_ms inp this ks in
    (fst r = 0
     \/ exists i : nat, (i < 4)%nat /\ fst r = nth i ks 0
          /\ IsKeyPressed inp (nth i ks 0) = true)
    /\ (snd r = this
        \/ exists i : nat, (i < 4)%nat
             /\ IsKeyPressed inp (nth i ks 0) = true
             /\ snd r = {| last_pressed := now inp i; key := nth i ks 0 |})
    /\ In (fst (is_double_press ticks_per_ms inp this keys)) (0 :: keys).
Proof.
  intros ticks_per_ms inp this ks r.
  assert (Hfst : forall l : list Z,
            fst (is_double_press ticks_per_ms inp this l) = 0
            \/ exists i : nat, (i < 4)%nat
                 /\ fst (is_double_press ticks_per_ms inp this l) = nth i l 0
                 /\ IsKeyPressed inp (nth i l 0) = true).
  { intros l. rewrite is_double_press_stored. cbn [fst].
    destruct (last_match_spec ticks_per_ms inp this l 4)
      as [[H0 _]|(i & Hi & Hm & Hl & _)]; [now left|].
    right. exists i. apply matches_true in Hm. tauto. }
  split; [apply Hfst|]. split.
  - unfold r. rewrite is_double_press_stored. cbn [snd].
    apply stored_spec.
  - destruct (Hfst keys) as [->|(i & Hi & -> & _)]; [now left|].
    right. apply nth_In. cbn. exact Hi.
Qed.

(** The 300ms are counted from the previous press, not from the first of
    a series: of three presses of one key, at times whose sum with 300ms
    fits the clock's 64-bit count, the second is a double press when it
    comes less than 300ms after the first and the third when it comes less
    than 300ms after the second, frames without a press in between changing
    nothing.  Three presses 200ms apart give two dash events. *)
Theorem double_press_window_slides :
  forall (ticks_per_ms : Z) (this : KeyDoublePress) (k : Z)
         (t1 t2 t3 ti : time_point),
    In k keys -> key this <> k ->
    Int64.in_range (t1 + milliseconds ticks_per_ms 300) ->
    Int64.in_range (t2 + milliseconds ticks_per_ms 300) ->
    let s1 :=
      snd (is_double_press ticks_per_ms (Scenario.press k t1) this keys) in
    let r2 := is_double_press ticks_per_ms (Scenario.press k t2) s1 keys in
    let si :=
      snd (is_double_press ticks_per_ms (Scenario.idle ti) (snd r2) keys) in
    let r3 := is_double_press ticks_per_ms (Scenario.press k t3) si keys in
    fst r2 = (if t2 <? t1 + milliseconds ticks_per_ms 300 then k else 0)
    /\ fst r3 = (if t3 <? t2 + milliseconds ticks_per_ms 300 then k else 0)
    /\ (0 < ticks_per_ms ->
        t2 = t1 + milliseconds ticks_per_ms 200 ->
        t3 = t2 + milliseconds ticks_per_ms 200 ->
        fst r2 = k /\ fst r3 = k
        /\ t1 + milliseconds ticks_per_ms 300 <= t3).
Proof.
  intros ticks_per_ms this k t1 t2 t3 ti Hk Hne Hrep1 Hrep2 s1 r2 si r3.
  assert (E1 : s1 = {| last_pressed := t1; key := k |}).
  { unfold s1. now rewrite single_press. }
  assert (E2 : r2 = (if t2 <? t1 + milliseconds ticks_per_ms 300
                     then k else 0,
                     {| last_pressed := t2; key := k |})).
  { unfold r2. rewrite E1, single_press by exact Hk.
    cbn [key last_pressed]. now rewrite Z.eqb_refl, (wrap64_small _ Hrep1). }
  assert (Ei : si = {| last_pressed := t2; key := k |}).
  { unfold si. rewrite E2. cbn [snd]. reflexivity. }
  assert (E3 : fst r3 = if t3 <? t2 + milliseconds ticks_per_ms 300
                        then k else 0).
  { unfold r3. rewrite Ei, single_press by exact Hk.
    cbn [key last_pressed fst].
    now rewrite Z.eqb_refl, (wrap64_small _ Hrep2). }
  split; [rewrite E2; reflexivity|]. split; [exact E3|].
  intros Hpos -> ->. rewrite E2, E3. cbn [fst]. unfold milliseconds.
  repeat split.
  - destruct (Z.ltb_spec (t1 + 200 * ticks_per_ms) (t1 + 300 * ticks_per_ms));
      [reflexivity|lia].
  - destruct (Z.ltb_spec (t1 + 200 * ticks_per_ms + 200 * ticks_per_ms)
                (t1 + 200 * ticks_per_ms + 300 * ticks_per_ms));
      [reflexivity|lia].
  - lia.
Qed.

Lemma double_press_window_slides_witness :
  In KEY_D keys /\ key Scenario.detector0 <> KEY_D
  /\ Int64.in_range (Scenario.second_ns
                     + milliseconds Scenario.ns_per_ms 300)
  /\ Int64.in_range (1200000000 + milliseconds Scenario.ns_per_ms 300)
  /\ 0 < Scenario.ns_per_ms
  /\ (let s1 :=
        snd (is_double_press Scenario.ns_per_ms
               (Scenario.press KEY_D Scenario.second_ns)
               Scenario.detector0 keys) in
      let r2 :=
        is_double_press Scenario.ns_per_ms
          (Scenario.press KEY_D 1200000000) s1 keys in
      let si :=
        snd (is_double_press Scenario.ns_per_ms
               (Scenario.idle 1300000000) (snd r2) keys) in
      let r3 :=
        is_double_press Scenario.ns_per_ms
          (Scenario.press KEY_D 1400000000) si keys in
      fst r2 = KEY_D /\ fst r3 = KEY_D).
Proof.
  assert (Hk : In KEY_D keys) by (cbn; auto).
  assert (Hne : key Scenario.detector0 <> KEY_D) by (vm_compute; congruence).
  assert (Hr1 : Int64.in_range (Scenario.second_ns
                                + milliseconds Scenario.ns_per_ms 300))
    by (vm_compute; split; congruence).
  assert (Hr2 : Int64.in_range (1200000000
                                + milliseconds Scenario.ns_per_ms 300))
    by (vm_compute; split; congruence).
  assert (Hpos : 0 < Scenario.ns_per_ms) by reflexivity.
  split; [exact Hk|]. split; [exact Hne|]. split; [exact Hr1|].
  split; [exact Hr2|]. split; [exact Hpos|].
  destruct (double_press_window_slides Scenario.ns_per_ms
              Scenario.detector0 KEY_D Scenario.second_ns 1200000000
              1400000000 1300000000 Hk Hne Hr1 Hr2) as (_ & _ & H).
  destruct (H Hpos eq_refl eq_refl) as (A & B & _).
  cbv zeta. split; [exact A|exact B].
Defined.

(* ================================================================== *)
(** ** A double tap, from the keyboard to the position *)




(* ================================================================== *)
(** ** Where the resolver can put the player *)

Lemma last_snap_start_or_in (snaps : list (option float)) :
  forall start : float,
    last_snap snaps start = start
    \/ In (Some (last_snap snaps start)) snaps.
Proof.
  induction snaps as [|[v|] rest IH]; intros start; [now left| |].
  - cbn [last_snap]. destruct (IH v) as [->|Hin]; right; [now left|now right].
  - cbn [last_snap]. destruct (IH start) as [E|Hin]; [now left|].
    right. now right.
Qed.

(** [apply_gravity] commits only positions it has a reason for: [x] is the
    tentative [x + delta_x] or flush against the left or right side of one
    of the walls; [y] is the tentative [y + delta_y], the floor's
    [floor.y - height], or flush against the top or bottom of one of the
    walls. *)
Theorem committed_position_values :
  forall (platform : Platform) (player : Player) (floor : Rectangle)
         (walls : list Rectangle),
    let g := gravity_step player in
    let p' := apply_gravity player floor walls in
    (x p' = F32.add (x player) (F32.of_int (delta_x player))
     \/ exists wall, In wall walls
          /\ (x p' = F32.sub (x wall) (width player)
              \/ x p' = F32.add (x wall) (width wall)))
    /\ (y p' = F32.add (y player) (F32.of_int (delta_y g))
        \/ y p' = F32.sub (y floor) (height player)
        \/ exists wall, In wall walls
             /\ (y p' = F32.sub (y wall) (height player)
                 \/ y p' = F32.add (y wall) (height wall))).
Proof.
  intros platform player floor walls g p'. unfold p'.
  rewrite (apply_gravity_snaps player floor walls). cbv zeta. fold g.
  cbn [x y rect].
  set (nr := next_rect g (tentative_x g) (tentative_y g)).
  assert (Hr : rect g = rect player) by apply rect_gravity_step.
  split.
  - destruct (last_snap_start_or_in (map (x_snap player nr) walls)
                (tentative_x g)) as [->|Hin].
    + left. unfold tentative_x, g.
      now rewrite delta_x_gravity_step, rect_gravity_step.
    + right. apply in_map_iff in Hin. destruct Hin as (wall & Hs & Hin).
      exists wall. split; [exact Hin|].
      unfold x_snap in Hs. destruct (collides nr wall); [|discriminate].
      destruct (crossed_from_right player nr wall);
        [right; injection Hs as Hs; symmetry; exact Hs|].
      destruct (crossed_from_left player nr wall); [|discriminate].
      left. injection Hs as Hs. symmetry. exact Hs.
  - rewrite floor_check_spec.
    set (fy := snd (if CheckCollisionRecs _ floor then _ else _)).
    assert (Hfy : fy = F32.add (y player) (F32.of_int (delta_y g))
                  \/ fy = F32.sub (y floor) (height player)).
    { unfold fy. destruct (CheckCollisionRecs _ floor); cbn [snd].
      - right. now rewrite Hr.
      - left. unfold tentative_y. now rewrite Hr. }
    destruct (last_snap_start_or_in (map (y_snap player nr) walls) fy)
      as [->|Hin].
    + destruct Hfy as [->| ->]; [now left|right; now left].
    + right. right. apply in_map_iff in Hin.
      destruct Hin as (wall & Hs & Hin).
      exists wall. split; [exact Hin|].
      unfold y_snap in Hs. destruct (collides nr wall); [|discriminate].
      destruct (crossed_from_below player nr wall);
        [right; injection Hs as Hs; symmetry; exact Hs|].
      destruct (crossed_from_above player nr wall); [|discriminate].
      left. injection Hs as Hs. symmetry. exact Hs.
Qed.

(* ================================================================== *)
(** ** No sideways push without horizontal velocity *)

Lemma sub_diag (a : float) :
  is_number a = true -> F32.sub a a = S754_zero false.
Proof.
  destruct a as [[|]|s| |s m e]; cbn [is_number]; intros H;
    try discriminate; try reflexivity.
  unfold F32.sub, SFsub. rewrite Z.sub_diag. reflexivity.
Qed.

Lemma zero_add (a : float) :
  a <> S754_zero true -> F32.add (S754_zero false) a = a.
Proof.
  intros Hn. destruct a as [[|]| | |]; try reflexivity. contradiction.
Qed.

Lemma min_diag (a : float) : F32.min a a = a.
Proof. unfold F32.min. destruct (F32.ltb a a); reflexivity. Qed.

(** A player with [delta_x = 0] is never moved sideways: whatever the floor
    and the walls are, [x] after the call is [x] before it.  The swept
    rectangle is then as wide as the player, so no wall can see it start on
    one side and fail to end there.  ([x] must be a number and neither [x]
    nor [width] the negative zero; [abs] must map 0 to 0.) *)
Theorem no_sideways_push :
  forall (platform : Platform) (player : Player) (floor : Rectangle)
         (walls : list Rectangle),
    abs (S754_zero false) = S754_zero false ->
    delta_x player = 0 ->
    is_number (x player) = true ->
    x player <> S754_zero true ->
    width player <> S754_zero true ->
    x (apply_gravity player floor walls) = x player.
Proof.
  intros platform player floor walls Habs Hdx Hnum Hx Hw.
  rewrite (apply_gravity_snaps player floor walls). cbv zeta. cbn [x rect].
  set (g := gravity_step player).
  assert (Hr : rect g = rect player) by apply rect_gravity_step.
  assert (Htx : tentative_x g = x player).
  { unfold tentative_x, g.
    rewrite delta_x_gravity_step, rect_gravity_step, Hdx.
    now apply add_zero. }
  rewrite Htx.
  set (nr := next_rect g (x player) (tentative_y g)).
  assert (Hnx : x nr = x player).
  { unfold nr, next_rect. cbn [x]. rewrite Hr. apply min_diag. }
  assert (Hnw : width nr = width player).
  { unfold nr, next_rect. cbn [width]. rewrite Hr.
    rewrite sub_diag by exact Hnum. rewrite Habs. now apply zero_add. }
  apply last_snap_none. apply Forall_map. apply Forall_forall.
  intros wall _. unfold x_snap, crossed_from_right, crossed_from_left.
  rewrite Hnx, Hnw.
  destruct (collides nr wall); [|reflexivity].
  destruct (F32.leb (F32.add (x wall) (width wall)) (x player));
  destruct (F32.leb (F32.add (x player) (width player)) (x wall));
    reflexivity.
Qed.

Lemma no_sideways_push_witness :
  @abs Raylib.platform (S754_zero false) = S754_zero false
  /\ delta_x Session.beside_wall = 0
  /\ is_number (x Session.beside_wall) = true
  /\ x Session.beside_wall <> S754_zero true
  /\ width Session.beside_wall <> S754_zero true
  /\ x (@apply_gravity Raylib.platform Session.beside_wall Scenario.floor
          Scenario.walls) = F32.of_int 120.
Proof.
  assert (H1 : @abs Raylib.platform (S754_zero false) = S754_zero false)
    by reflexivity.
  assert (H2 : delta_x Session.beside_wall = 0) by reflexivity.
  assert (H3 : is_number (x Session.beside_wall) = true)
    by (vm_compute; reflexivity).
  assert (H4 : x Session.beside_wall <> S754_zero true)
    by (vm_compute; congruence).
  assert (H5 : width Session.beside_wall <> S754_zero true)
    by (vm_compute; congruence).
  split; [exact H1|]. split; [exact H2|]. split; [exact H3|].
  split; [exact H4|]. split; [exact H5|].
  etransitivity;
    [exact (no_sideways_push Raylib.platform Session.beside_wall
              Scenario.floor Scenario.walls H1 H2 H3 H4 H5)|].
  vm_compute. reflexivity.
Defined.
